(** * rss_scraper.rss_parser: a shallow embedding and its properties

    The development follows [src/rss_scraper.py].

    - [ET] models the part of [xml.etree.ElementTree] that [rss_parser]
      uses: the [Element] tree with [find], [findall] and [text], the
      [ParseError] exception, and [fromstring] on a fragment of XML.
    - [Py] models the Python values and built-ins the function uses:
      [None]-or-[str] values, truthiness, f-string formatting, [str.join],
      list slicing, insertion-ordered dicts and exceptions.
    - [Json] models [json.dumps(obj, indent=2, ensure_ascii=False)].
    - [rss_parser] is the function itself, written over an arbitrary
      XML parser [fromstring], statement by statement.
    - [main] is the command line entry point, written over its
      collaborators: the argument parser, the fetch and standard output.

    Strings are byte strings holding the UTF-8 encoding of the Python text. *)

From Stdlib Require Import String Ascii List ZArith Lia Bool Arith.
From Stdlib Require Import DecimalString.
Import ListNotations.

Set Warnings "-register-all".

Local Open Scope list_scope.
Local Open Scope string_scope.

(* ===================================================================== *)
(** * xml.etree.ElementTree                                               *)
(* ===================================================================== *)

Module ET.

(** An [Element]: its tag, the text before its first child ([None] when
    there is none), the text after its end tag, and its child elements in
    document order.  The default tree builder drops comments and
    processing instructions, so every child is an element. *)
Inductive Element : Type :=
  mkElement { tag : string;
              text : option string;
              tail : option string;
              children : list Element }.

(** [Element.find(path)] for a path that is a plain tag name: the first
    direct child with that tag, or [None]. *)
Definition find (e : Element) (path : string) : option Element :=
  List.find (fun c => String.eqb (tag c) path) (children e).

(** [Element.findall(path)] for a plain tag name: all direct children with
    that tag, in document order. *)
Definition findall (e : Element) (path : string) : list Element :=
  List.filter (fun c => String.eqb (tag c) path) (children e).

(** The expat error codes that the model of [fromstring] reports. *)
Inductive ErrorCode : Type :=
| XML_ERROR_NO_ELEMENTS
| XML_ERROR_UNCLOSED_TOKEN
| XML_ERROR_TAG_MISMATCH
| XML_ERROR_JUNK_AFTER_DOC_ELEMENT.

Definition ErrorString (c : ErrorCode) : string :=
  match c with
  | XML_ERROR_NO_ELEMENTS => "no element found"
  | XML_ERROR_UNCLOSED_TOKEN => "unclosed token"
  | XML_ERROR_TAG_MISMATCH => "mismatched tag"
  | XML_ERROR_JUNK_AFTER_DOC_ELEMENT => "junk after document element"
  end.

(** [ET.ParseError]: the expat code and the (line, column) position. *)
Record ParseError : Type :=
  mkParseError { code : ErrorCode; position : nat * nat }.

Definition decimal (n : nat) : string := NilZero.string_of_uint (Nat.to_uint n).

(** [str(e)] for a [ParseError]. *)
Definition ParseError_str (e : ParseError) : string :=
  ErrorString (code e) ++ ": line " ++ decimal (fst (position e))
    ++ ", column " ++ decimal (snd (position e)).

(** ** [fromstring] on a fragment of XML

    The fragment: one root element; start, end and empty-element tags
    with ASCII names and no attributes; character data; the five
    predefined entity references.  The parser is expat's shape: a
    character-driven tokenizer feeding a tree builder that keeps a stack
    of open elements.  An input that uses anything else (attributes,
    comments, declarations, CDATA, character references, carriage
    returns, ...) or that is malformed in a way whose expat diagnostic
    is not modelled yields [Unmodelled]. *)

Inductive outcome : Type :=
| Parsed (root : Element)
| Malformed (e : ParseError)
| Unmodelled.

(** An element under construction: children are kept most recent first. *)
Record frame : Type :=
  mkFrame { ftag : string; ftext : option string; fkids : list Element }.

Inductive lexmode : Type :=
| Text (rbrackets : nat)
| Lt
| StartName (n : string)
| StartWS (n : string)
| EmptySlash (n : string)
| EndSlash
| EndName (n : string) (at_ : nat * nat)
| EndWS (n : string) (at_ : nat * nat)
| Ref (r : string).

Record pstate : Type :=
  mkPstate { stack : list frame;
             root : option Element;
             mode : lexmode;
             here : nat * nat;
             tokstart : nat * nat;
             utf8 : nat }.

Inductive machine : Type :=
| Running (st : pstate)
| Halted (o : outcome).

(** [byte_is c n]: the byte [c] has code [n]; [within lo c hi]: its code lies
    in the closed range. *)
Definition byte_is (c : ascii) (n : nat) : bool := Nat.eqb (nat_of_ascii c) n.

Definition within (lo : nat) (c : ascii) (hi : nat) : bool :=
  Nat.leb lo (nat_of_ascii c) && Nat.leb (nat_of_ascii c) hi.

Definition is_ws (c : ascii) : bool := byte_is c 32 || byte_is c 9 || byte_is c 10.

Definition is_letter (c : ascii) : bool := within 65 c 90 || within 97 c 122.

Definition is_digit (c : ascii) : bool := within 48 c 57.

Definition is_name_start (c : ascii) : bool := is_letter c || byte_is c 95.

Definition is_name_char (c : ascii) : bool :=
  is_name_start c || is_digit c || byte_is c 45 || byte_is c 46.

(** Character data: tab, newline, and everything from space upwards. *)
Definition is_data_char (c : ascii) : bool := byte_is c 9 || byte_is c 10 || within 32 c 255.

(** Bytes 0x80..0xBF continue a UTF-8 character and take no column. *)
Definition is_continuation (c : ascii) : bool := within 128 c 191.

Definition advance (p : nat * nat) (c : ascii) : nat * nat :=
  if byte_is c 10 then (S (fst p), 0)
  else if is_continuation c then p
  else (fst p, S (snd p)).

(** Progress through the bytes EF BF, after which BE or BF would spell
    the noncharacters U+FFFE and U+FFFF. *)
Definition utf8_next (u : nat) (c : ascii) : nat :=
  if byte_is c 239 then 1
  else if Nat.eqb u 1 && byte_is c 191 then 2
  else 0.

Definition utf8_bad (u : nat) (c : ascii) : bool :=
  Nat.eqb u 2 && (byte_is c 190 || byte_is c 191).

Definition snoc_char (s : string) (c : ascii) : string := s ++ String c "".

Definition add_text (t : option string) (c : ascii) : option string :=
  match t with
  | None => Some (String c "")
  | Some s => Some (snoc_char s c)
  end.

(** The tree builder's [data] event: the character goes to the text of
    the innermost open element, or to the tail of its last child. *)
Definition add_data (stk : list frame) (c : ascii) : list frame :=
  match stk with
  | [] => []
  | f :: rest =>
      match fkids f with
      | [] => mkFrame (ftag f) (add_text (ftext f) c) [] :: rest
      | k :: ks =>
          mkFrame (ftag f) (ftext f)
            (mkElement (tag k) (text k) (add_text (tail k) c) (children k) :: ks)
            :: rest
      end
  end.

Definition set_mode (st : pstate) (m : lexmode) (p : nat * nat) : pstate :=
  mkPstate (stack st) (root st) m p (tokstart st) 0.

(** The [start] event. *)
Definition open_element (st : pstate) (n : string) (p : nat * nat) : pstate :=
  mkPstate (mkFrame n None [] :: stack st) (root st) (Text 0) p (tokstart st) 0.

(** The [end] event for the innermost open element. *)
Definition close_top (st : pstate) (p : nat * nat) : pstate :=
  match stack st with
  | [] => st
  | f :: rest =>
      let e := mkElement (ftag f) (ftext f) None (rev (fkids f)) in
      match rest with
      | [] => mkPstate [] (Some e) (Text 0) p (tokstart st) 0
      | parent :: more =>
          mkPstate (mkFrame (ftag parent) (ftext parent) (e :: fkids parent) :: more)
            (root st) (Text 0) p (tokstart st) 0
      end
  end.

Definition close_element (st : pstate) (n : string) (at_ p : nat * nat) : machine :=
  match stack st with
  | [] => Halted Unmodelled
  | f :: _ =>
      if String.eqb (ftag f) n then Running (close_top st p)
      else Halted (Malformed (mkParseError XML_ERROR_TAG_MISMATCH at_))
  end.

Definition in_content (st : pstate) : bool :=
  match stack st with [] => false | _ :: _ => true end.

Definition in_epilog (st : pstate) : bool :=
  match stack st, root st with [], Some _ => true | _, _ => false end.

Definition entity (r : string) : option ascii :=
  if String.eqb r "lt" then Some "<"%char
  else if String.eqb r "gt" then Some ">"%char
  else if String.eqb r "amp" then Some "&"%char
  else if String.eqb r "quot" then Some (ascii_of_nat 34)
  else if String.eqb r "apos" then Some "'"%char
  else None.

Definition emit (st : pstate) (c : ascii) (rb : nat) (p : nat * nat) : pstate :=
  mkPstate (add_data (stack st) c) (root st) (Text rb) p (tokstart st)
    (utf8_next (utf8 st) c).

Definition begin_token (st : pstate) (m : lexmode) (p : nat * nat) : pstate :=
  mkPstate (stack st) (root st) m p (here st) 0.

Definition step_text (st : pstate) (rb : nat) (c : ascii) : machine :=
  let p := advance (here st) c in
  if in_content st then
    if byte_is c 60 then Running (begin_token st Lt p)
    else if byte_is c 38 then Running (begin_token st (Ref "") p)
    else if byte_is c 62 then
      if Nat.leb 2 rb then Halted Unmodelled else Running (emit st c 0 p)
    else if byte_is c 93 then Running (emit st c (Nat.min 2 (S rb)) p)
    else if is_data_char c && negb (utf8_bad (utf8 st) c) then Running (emit st c 0 p)
    else Halted Unmodelled
  else
    if is_ws c then Running (set_mode st (Text 0) p)
    else if byte_is c 60 then Running (begin_token st Lt p)
    else Halted Unmodelled.

Definition finish_start (st : pstate) (n : string) (p : nat * nat) (empty : bool) : machine :=
  if in_epilog st then
    Halted (Malformed (mkParseError XML_ERROR_JUNK_AFTER_DOC_ELEMENT (tokstart st)))
  else if empty then Running (close_top (open_element st n p) p)
  else Running (open_element st n p).

(** One byte of input. *)
Definition step (m : machine) (c : ascii) : machine :=
  match m with
  | Halted o => Halted o
  | Running st =>
      let p := advance (here st) c in
      match mode st with
      | Text rb => step_text st rb c
      | Lt =>
          if is_name_start c then Running (set_mode st (StartName (String c "")) p)
          else if (byte_is c 47) && in_content st then Running (set_mode st EndSlash p)
          else Halted Unmodelled
      | StartName n =>
          if is_name_char c then Running (set_mode st (StartName (snoc_char n c)) p)
          else if is_ws c then Running (set_mode st (StartWS n) p)
          else if byte_is c 62 then finish_start st n p false
          else if byte_is c 47 then Running (set_mode st (EmptySlash n) p)
          else Halted Unmodelled
      | StartWS n =>
          if is_ws c then Running (set_mode st (StartWS n) p)
          else if byte_is c 62 then finish_start st n p false
          else if byte_is c 47 then Running (set_mode st (EmptySlash n) p)
          else Halted Unmodelled
      | EmptySlash n =>
          if byte_is c 62 then finish_start st n p true
          else Halted Unmodelled
      | EndSlash =>
          if is_name_start c
          then Running (set_mode st (EndName (String c "") (here st)) p)
          else Halted Unmodelled
      | EndName n a =>
          if is_name_char c then Running (set_mode st (EndName (snoc_char n c) a) p)
          else if is_ws c then Running (set_mode st (EndWS n a) p)
          else if byte_is c 62 then close_element st n a p
          else Halted Unmodelled
      | EndWS n a =>
          if is_ws c then Running (set_mode st (EndWS n a) p)
          else if byte_is c 62 then close_element st n a p
          else Halted Unmodelled
      | Ref r =>
          if is_letter c then Running (set_mode st (Ref (snoc_char r c)) p)
          else if byte_is c 59 then
            match entity r with
            | Some d => Running (emit st d 0 p)
            | None => Halted Unmodelled
            end
          else Halted Unmodelled
      end
  end.

(** End of input. *)
Definition finish (m : machine) : outcome :=
  match m with
  | Halted o => o
  | Running st =>
      match mode st with
      | Text _ =>
          match stack st, root st with
          | [], Some r => Parsed r
          | _, _ => Malformed (mkParseError XML_ERROR_NO_ELEMENTS (here st))
          end
      | _ =>
          if in_epilog st then Unmodelled
          else Malformed (mkParseError XML_ERROR_UNCLOSED_TOKEN (tokstart st))
      end
  end.

Definition initial : machine :=
  Running (mkPstate [] None (Text 0) (1, 0) (1, 0) 0).

Definition parse (xml : string) : outcome :=
  finish (fold_left step (list_ascii_of_string xml) initial).

(** The error standing for an input outside the fragment; it is not an
    expat diagnostic and no statement below depends on it. *)
Definition outside_fragment : ParseError := mkParseError XML_ERROR_NO_ELEMENTS (0, 0).

(** [ET.fromstring]: the root element, or the [ParseError] raised. *)
Definition fromstring (xml : string) : ParseError + Element :=
  match parse xml with
  | Parsed r => inr r
  | Malformed e => inl e
  | Unmodelled => inl outside_fragment
  end.

End ET.

(* ===================================================================== *)
(** * Python values, built-ins and exceptions                             *)
(* ===================================================================== *)

Module Py.

(** A value that is [None] or a [str]: what [Element.text] evaluates to. *)
Definition optstr : Type := option string.

(** The objects handed to [json.dumps]: [None], [str], [list], [dict].
    A dict is an association list in insertion order. *)
Inductive object : Type :=
| PyNone
| PyStr (s : string)
| PyList (l : list object)
| PyDict (d : list (string * object)).

Definition of_optstr (v : optstr) : object :=
  match v with
  | None => PyNone
  | Some s => PyStr s
  end.

(** The exceptions that can arise in [rss_parser]. *)
Inductive exn : Type :=
| ParseError (e : ET.ParseError)
| AttributeError (msg : string)
| TypeError (msg : string)
| KeyError (key : string)
| UnhandledException (arg : exn).

(** [str(e)] of an exception: its message; the exception wrapped by an
    [UnhandledException] gives the message of the wrapper. *)
Fixpoint str (e : exn) : string :=
  match e with
  | ParseError pe => ET.ParseError_str pe
  | AttributeError msg => msg
  | TypeError msg => msg
  | KeyError key => "'" ++ key ++ "'"
  | UnhandledException arg => str arg
  end.

(** The outcome of evaluating an expression or running a block. *)
Inductive result (A : Type) : Type :=
| Ok (a : A)
| Raise (e : exn).

Arguments Ok {A} a.
Arguments Raise {A} e.

Definition bind {A B : Type} (c : result A) (k : A -> result B) : result B :=
  match c with
  | Ok a => k a
  | Raise e => Raise e
  end.

(** [for x in l: s = body(s, x)], stopping at the first exception. *)
Fixpoint for_each {A S : Type} (body : S -> A -> result S) (l : list A) (s : S)
  : result S :=
  match l with
  | [] => Ok s
  | x :: rest => bind (body s x) (for_each body rest)
  end.

(** Truth value of a [None]-or-[str] value: [None] and the empty string
    are false. *)
Definition truthy (v : optstr) : bool :=
  match v with
  | None => false
  | Some s => negb (String.eqb s "")
  end.

(** [f"{v}"]: a [str] as it is, [None] as the word None. *)
Definition format (v : optstr) : string :=
  match v with
  | None => "None"
  | Some s => s
  end.

(** [f"{prefix}{v}"]: literal text followed by a replacement field. *)
Definition fstring (prefix : string) (v : optstr) : string := prefix ++ format v.

(** Attribute access and method calls on a value that may be [None]. *)
Definition no_attribute (name : string) : exn :=
  AttributeError ("'NoneType' object has no attribute '" ++ name ++ "'").

Definition find (o : option ET.Element) (path : string) : result (option ET.Element) :=
  match o with
  | None => Raise (no_attribute "find")
  | Some e => Ok (ET.find e path)
  end.

Definition findall (o : option ET.Element) (path : string) : result (list ET.Element) :=
  match o with
  | None => Raise (no_attribute "findall")
  | Some e => Ok (ET.findall e path)
  end.

Definition text (o : option ET.Element) : result optstr :=
  match o with
  | None => Raise (no_attribute "text")
  | Some e => Ok (ET.text e)
  end.

(** [sep.join(l)]: every item has to be a [str]. *)
Fixpoint join_from (i : nat) (sep : string) (l : list optstr) : result string :=
  match l with
  | [] => Ok ""
  | None :: _ =>
      Raise (TypeError ("sequence item " ++ ET.decimal i
                          ++ ": expected str instance, NoneType found"))
  | Some s :: rest =>
      match rest with
      | [] => Ok s
      | _ :: _ => bind (join_from (S i) sep rest) (fun r => Ok (s ++ sep ++ r))
      end
  end.

Definition join (sep : string) (l : list optstr) : result string := join_from 0 sep l.

(** [l[:stop]]: a negative [stop] counts from the end, and both ends are
    clipped to the list. *)
Definition slice_to {A : Type} (l : list A) (stop : Z) : list A :=
  let n := Z.of_nat (length l) in
  let stop' := if (stop <? 0)%Z then Z.max (stop + n) 0 else Z.min stop n in
  firstn (Z.to_nat stop') l.

(** [l.append(x)] on a list held by the caller. *)
Definition append {A : Type} (l : list A) (x : A) : list A := (l ++ [x])%list.

(** [d[k]]. *)
Fixpoint lookup (d : list (string * object)) (k : string) : option object :=
  match d with
  | [] => None
  | (k', v) :: rest => if String.eqb k' k then Some v else lookup rest k
  end.

Definition getitem (d : list (string * object)) (k : string) : result object :=
  match lookup d k with
  | Some v => Ok v
  | None => Raise (KeyError k)
  end.

(** [d[k] = v]: an existing key keeps its place, a new one goes last. *)
Fixpoint setitem (d : list (string * object)) (k : string) (v : object)
  : list (string * object) :=
  match d with
  | [] => [(k, v)]
  | (k', v') :: rest =>
      if String.eqb k' k then (k, v) :: rest else (k', v') :: setitem rest k v
  end.

(** A dict display [{k1: v1, ..., kn: vn}]: the items are stored left to
    right. *)
Definition dict_display (items : list (string * object)) : list (string * object) :=
  fold_left (fun d kv => setitem d (fst kv) (snd kv)) items [].

(** [o.append(x)] on an object: only a list has the method.  The list is
    changed in place, so the result stands for the same object. *)
Definition object_append (o : object) (x : object) : result object :=
  match o with
  | PyList l => Ok (PyList (append l x))
  | PyNone => Raise (no_attribute "append")
  | PyStr _ => Raise (AttributeError "'str' object has no attribute 'append'")
  | PyDict _ => Raise (AttributeError "'dict' object has no attribute 'append'")
  end.

End Py.

Notation "x <- c ;; k" := (Py.bind c (fun x => k))
  (at level 61, c at next level, right associativity).

(* ===================================================================== *)
(** * json.dumps(obj, indent=2, ensure_ascii=False)                       *)
(* ===================================================================== *)

Module Json.

Definition quote : ascii := ascii_of_nat 34.
Definition backslash : ascii := ascii_of_nat 92.

Definition hex_digit (n : nat) : ascii :=
  if Nat.ltb n 10 then ascii_of_nat (48 + n) else ascii_of_nat (87 + n).

(** The replacement of one character: quote, backslash and the control
    characters below 0x20 are escaped; everything else, non-ASCII bytes
    included, stands for itself. *)
Definition escape_char (c : ascii) : string :=
  let n := nat_of_ascii c in
  if Nat.eqb n 34 then String backslash (String quote "")
  else if Nat.eqb n 92 then String backslash (String backslash "")
  else if Nat.eqb n 10 then String backslash "n"
  else if Nat.eqb n 13 then String backslash "r"
  else if Nat.eqb n 9 then String backslash "t"
  else if Nat.eqb n 8 then String backslash "b"
  else if Nat.eqb n 12 then String backslash "f"
  else if Nat.ltb n 32 then
    String backslash ("u00" ++ String (hex_digit (n / 16)) (String (hex_digit (n mod 16)) ""))
  else String c "".

Fixpoint escape (s : string) : string :=
  match s with
  | EmptyString => ""
  | String c rest => escape_char c ++ escape rest
  end.

(** [py_encode_basestring]: the escaped text between quotes. *)
Definition encode_basestring (s : string) : string :=
  String quote (escape s ++ String quote "").

Fixpoint spaces (n : nat) : string :=
  match n with
  | O => ""
  | S k => String " " (spaces k)
  end.

(** A line break followed by the indentation of nesting depth [level]. *)
Definition newline_indent (level : nat) : string :=
  String (ascii_of_nat 10) (spaces (2 * level)).

(** The encoder at nesting depth [level].  Empty containers are written
    without a line break; items are separated by a comma and a line
    break, a key from its value by a colon and a space. *)
Fixpoint encode (level : nat) (o : Py.object) : string :=
  match o with
  | Py.PyNone => "null"
  | Py.PyStr s => encode_basestring s
  | Py.PyList [] => "[]"
  | Py.PyList l =>
      "[" ++ newline_indent (S level)
        ++ String.concat ("," ++ newline_indent (S level)) (map (encode (S level)) l)
        ++ newline_indent level ++ "]"
  | Py.PyDict [] => "{}"
  | Py.PyDict d =>
      "{" ++ newline_indent (S level)
        ++ String.concat ("," ++ newline_indent (S level))
             (map (fun kv => encode_basestring (fst kv) ++ ": " ++ encode (S level) (snd kv)) d)
        ++ newline_indent level ++ "}"
  end.

Definition dumps (o : Py.object) : string := encode 0 o.

End Json.

(* ===================================================================== *)
(** * rss_scraper.rss_parser                                              *)
(* ===================================================================== *)

Section Parser.

(** The XML library's parser: the root element, or the [ParseError] it
    raises. *)
Variable fromstring : string -> ET.ParseError + ET.Element.

Definition call_fromstring (xml : string) : Py.result ET.Element :=
  match fromstring xml with
  | inl e => Py.Raise (Py.ParseError e)
  | inr root => Py.Ok root
  end.

(** [found.text if found is not None else ''], for [found] the result of
    a [find]. *)
Definition text_if_present (found : option ET.Element) : Py.optstr :=
  match found with
  | Some e => ET.text e
  | None => Some ""
  end.

(** [[cat.text for cat in categories if cat.text]]. *)
Definition truthy_texts (categories : list ET.Element) : list Py.optstr :=
  map ET.text (filter (fun cat => Py.truthy (ET.text cat)) categories).

(** [if found is not None and found.text: output.append(f"{label}{found.text}")]. *)
Definition append_if_text (output : list string) (label : string)
  (found : option ET.Element) : list string :=
  match found with
  | Some e =>
      if Py.truthy (ET.text e)
      then Py.append output (Py.fstring label (ET.text e))
      else output
  | None => output
  end.

(** [if value: output.append(f"{label}{value}")]. *)
Definition append_if (output : list string) (label : string) (value : Py.optstr)
  : list string :=
  if Py.truthy value then Py.append output (Py.fstring label value) else output.

(** The body of the JSON loop (lines 54-61): the item's dict is appended to
    the list stored under 'items'. *)
Definition json_item (json_output : list (string * Py.object)) (item : ET.Element)
  : Py.result (list (string * Py.object)) :=
  let item_dict :=
    Py.dict_display
      [("title", Py.of_optstr (text_if_present (ET.find item "title")));
       ("pubDate", Py.of_optstr (text_if_present (ET.find item "pubDate")));
       ("link", Py.of_optstr (text_if_present (ET.find item "link")));
       ("description", Py.of_optstr (text_if_present (ET.find item "description")))] in
  items <- Py.getitem json_output "items";;
  items <- Py.object_append items (Py.PyDict item_dict);;
  Py.Ok (Py.setitem json_output "items" items).

(** The body of the text loop (lines 86-106). *)
Definition text_item (output : list string) (item : ET.Element)
  : Py.result (list string) :=
  let title_text := text_if_present (ET.find item "title") in
  let author := text_if_present (ET.find item "author") in
  let pub_date := text_if_present (ET.find item "pubDate") in
  let link := text_if_present (ET.find item "link") in
  let categories := truthy_texts (ET.findall item "category") in
  categories_text <- Py.join ", " categories;;
  let description := text_if_present (ET.find item "description") in
  let output := Py.append output (Py.fstring "Title: " title_text) in
  let output := append_if output "Author: " author in
  let output := append_if output "Published: " pub_date in
  let output := append_if output "Link: " link in
  let output := append_if output "Categories: " (Some categories_text) in
  let output := Py.append output "" in
  let output := Py.append output (Py.fstring "Description: " description) in
  let output := Py.append output "" in
  Py.Ok output.

(** The [try] block (lines 36-108). *)
Definition try_block (xml : string) (limit : option Z) (json : bool)
  : Py.result (list string) :=
  root <- call_fromstring xml;;
  let channel := ET.find root "channel" in
  title <- Py.find channel "title";;
  title <- Py.text title;;
  link <- Py.find channel "link";;
  link <- Py.text link;;
  categories <- Py.findall channel "category";;
  let cats := truthy_texts categories in
  items <- Py.findall channel "item";;
  let items :=
    match limit with
    | Some stop => Py.slice_to items stop
    | None => items
    end in
  if json then
    description <- Py.find channel "description";;
    let json_output :=
      Py.dict_display
        [("title", Py.of_optstr title);
         ("link", Py.of_optstr link);
         ("description", Py.of_optstr (text_if_present description));
         ("items", Py.PyList [])] in
    json_output <- Py.for_each json_item items json_output;;
    Py.Ok [Json.dumps (Py.PyDict json_output)]
  else
    let output := [Py.fstring "Feed: " title; Py.fstring "Link: " link] in
    output <-
      match cats with
      | [] => Py.Ok output
      | _ :: _ =>
          joined <- Py.join ", " cats;;
          Py.Ok (Py.append output (Py.fstring "Categories: " (Some joined)))
      end;;
    last_build_date <- Py.find channel "lastBuildDate";;
    let output := append_if_text output "Last Build Date: " last_build_date in
    pub_date <- Py.find channel "pubDate";;
    let output := append_if_text output "Publish Date: " pub_date in
    language <- Py.find channel "language";;
    let output := append_if_text output "Language: " language in
    managing_editor <- Py.find channel "managingEditor";;
    let output := append_if_text output "Editor: " managing_editor in
    description <- Py.find channel "description";;
    let output := append_if_text output "Description: " description in
    Py.for_each text_item items output.

(** [rss_parser]: the [try] block, with a [ParseError] caught and
    re-raised inside an [UnhandledException] (lines 109-110). *)
Definition rss_parser (xml : string) (limit : option Z) (json : bool)
  : Py.result (list string) :=
  match try_block xml limit json with
  | Py.Raise (Py.ParseError e) => Py.Raise (Py.UnhandledException (Py.ParseError e))
  | other => other
  end.

End Parser.

(* ===================================================================== *)
(** * rss_scraper.main                                                    *)
(* ===================================================================== *)

Module Cli.

(** The namespace [parse_args] returns for this parser: the positional
    [source] is optional ([nargs="?"]), [--json] is a flag, [--limit]
    is an integer or absent. *)
Record Namespace : Type :=
  mkNamespace { source : option string; json : bool; limit : option Z }.

(** How a call of [main] ends: it returns a value; it raises an
    [UnhandledException], around an exception of [rss_parser] or around
    the exception of a failed [print]; or an exception of a collaborator
    called before the [try] block passes through.  [Raise] holds the
    exception raised, [RaiseFromPrint e] stands for
    [UnhandledException(e)] with [e] the exception of the [print]. *)
Inductive outcome (E F : Type) : Type :=
| Return (code : Z)
| Raise (e : Py.exn)
| RaiseFromPrint (e : F)
| Propagate (e : E).

Arguments Return {E F} code.
Arguments Raise {E F} e.
Arguments RaiseFromPrint {E F} e.
Arguments Propagate {E F} e.

Definition newline : string := String (ascii_of_nat 10) "".

End Cli.

Section Main.

Variable fromstring : string -> ET.ParseError + ET.Element.

(** The exceptions of the collaborators called before the [try] block:
    [SystemExit] from argparse, the request exceptions from [requests]. *)
Variable E : Type.

(** The exceptions of a failed write to standard output, all of class
    [Exception]: [UnicodeEncodeError], [OSError], [ValueError]. *)
Variable F : Type.

(** [parser.parse_args(argv)] for the parser built in lines 116-126: the
    namespace, or the exception the call ends in together with what it
    has written to standard output before, which is the help text for
    [-h] and nothing for a usage error.  A call that returns has written
    nothing. *)
Variable parse_args : option (list string) -> (string * E) + Cli.Namespace.

(** [requests.get(source).text]. *)
Variable requests_get_text : option string -> E + string.

(** Whether the write of [print(s)] fails on the standard output at
    hand: [None] when it succeeds, otherwise the part of the output that
    got through and the exception raised. *)
Variable print_fails : string -> string -> option (string * F).

(** [print(s)]: the text and a line break go to standard output, unless
    the write fails. *)
Definition print (stdout s : string) : string * option F :=
  match print_fails stdout s with
  | None => (stdout ++ s ++ Cli.newline, None)
  | Some (written, e) => (stdout ++ written, Some e)
  end.

(** The argument of the [print] in the [try] block of [main] (line 131):
    the lines of [rss_parser] joined by line breaks. *)
Definition main_try (xml : string) (args : Cli.Namespace) : Py.result string :=
  lines <- rss_parser fromstring xml (Cli.limit args) (Cli.json args);;
  Py.join Cli.newline (map Some lines).

(** [main] (lines 112-134): standard output after the call, and how the
    call ends.  The arguments are parsed and the document is fetched
    outside the [try] block; every exception inside it, of [rss_parser]
    or of [print], is re-raised in an [UnhandledException]. *)
Definition main (argv : option (list string)) (stdout : string)
  : string * Cli.outcome E F :=
  match parse_args argv with
  | inl (written, e) => (stdout ++ written, Cli.Propagate e)
  | inr args =>
      match requests_get_text (Cli.source args) with
      | inl e => (stdout, Cli.Propagate e)
      | inr xml =>
          match main_try xml args with
          | Py.Raise e => (stdout, Cli.Raise (Py.UnhandledException e))
          | Py.Ok joined =>
              match print stdout joined with
              | (stdout', None) => (stdout', Cli.Return 0%Z)
              | (stdout', Some e) => (stdout', Cli.RaiseFromPrint e)
              end
          end
      end
  end.

End Main.

(* ===================================================================== *)
(** * What the output is expected to be                                   *)
(* ===================================================================== *)

(** The output described as a value: which lines, which keys, in which
    order.  [rss_parser] builds its output by appending in loops; the
    theorems below show that what it builds is what is described here. *)

(** A feed that [rss_parser] accepts: the document parses, its root has a
    [channel] child, and the channel has [title] and [link] children. *)
Definition well_formed_feed (fromstring : string -> ET.ParseError + ET.Element)
  (xml : string) (channel title link : ET.Element) : Prop :=
  exists root,
    fromstring xml = inr root /\
    ET.find root "channel" = Some channel /\
    ET.find channel "title" = Some title /\
    ET.find channel "link" = Some link.

(** The value of a field of an element: the text of the first child with
    that tag, the empty string when there is no such child. *)
Definition field (e : ET.Element) (name : string) : Py.optstr :=
  match ET.find e name with
  | Some child => ET.text child
  | None => Some ""
  end.

(** The texts of a list of elements, in order; an element without text
    contributes nothing. *)
Definition texts (l : list ET.Element) : list string :=
  flat_map (fun c => match ET.text c with Some s => [s] | None => [] end) l.

(** The texts of the [category] children, in document order. *)
Definition category_texts (e : ET.Element) : list string :=
  texts (ET.findall e "category").

(** The category values of an element: the texts of its [category]
    children that are not the empty string, in document order. *)
Definition category_values (e : ET.Element) : list string :=
  filter (fun s => negb (String.eqb s "")) (category_texts e).

(** The items kept under a limit: all of them without a limit, otherwise
    the slice the limit selects. *)
Definition kept_items (channel : ET.Element) (limit : option Z) : list ET.Element :=
  match limit with
  | None => ET.findall channel "item"
  | Some stop => Py.slice_to (ET.findall channel "item") stop
  end.

(** A line that is written only for a non-empty value. *)
Definition optional_line (label : string) (value : Py.optstr) : list string :=
  if Py.truthy value then [Py.fstring label value] else [].

(** The [Categories:] line: written only when there is a value. *)
Definition categories_line (values : list string) : list string :=
  match values with
  | [] => []
  | _ :: _ => [Py.fstring "Categories: " (Some (String.concat ", " values))]
  end.

(** A channel line that is written only when the element is present with
    a non-empty text. *)
Definition present_line (label : string) (found : option ET.Element) : list string :=
  match found with
  | Some e => optional_line label (ET.text e)
  | None => []
  end.

(** The lines of the channel, in text mode, for a given reading [values]
    of what the category values of an element are. *)
Definition channel_lines_with (values : ET.Element -> list string)
  (channel title link : ET.Element) : list string :=
  ([Py.fstring "Feed: " (ET.text title); Py.fstring "Link: " (ET.text link)]
     ++ categories_line (values channel)
     ++ present_line "Last Build Date: " (ET.find channel "lastBuildDate")
     ++ present_line "Publish Date: " (ET.find channel "pubDate")
     ++ present_line "Language: " (ET.find channel "language")
     ++ present_line "Editor: " (ET.find channel "managingEditor")
     ++ present_line "Description: " (ET.find channel "description"))%list.

(** The block of lines of one item, in text mode: the title line, the
    optional lines, a blank line, the description line, a blank line. *)
Definition item_block_with (values : ET.Element -> list string) (item : ET.Element)
  : list string :=
  ([Py.fstring "Title: " (field item "title")]
     ++ optional_line "Author: " (field item "author")
     ++ optional_line "Published: " (field item "pubDate")
     ++ optional_line "Link: " (field item "link")
     ++ categories_line (values item)
     ++ [""; Py.fstring "Description: " (field item "description"); ""])%list.

Definition channel_lines : ET.Element -> ET.Element -> ET.Element -> list string :=
  channel_lines_with category_values.

Definition item_block : ET.Element -> list string :=
  item_block_with category_values.

(** Whitespace-only text, the empty text included. *)
Definition is_blank (s : string) : bool :=
  forallb ET.is_ws (list_ascii_of_string s).

(** The category values under the reading that drops whitespace-only
    texts too. *)
Definition category_values_without_blank (e : ET.Element) : list string :=
  filter (fun s => negb (is_blank s)) (category_texts e).

(** The text-mode output that this reading asks for. *)
Definition excludes_blank_categories
  (fromstring : string -> ET.ParseError + ET.Element) : Prop :=
  forall (xml : string) (limit : option Z) (channel title link : ET.Element),
    well_formed_feed fromstring xml channel title link ->
    rss_parser fromstring xml limit false
    = Py.Ok (channel_lines_with category_values_without_blank channel title link
               ++ flat_map (item_block_with category_values_without_blank)
                    (kept_items channel limit))%list.

(** The JSON object of one item: four keys, in this order. *)
Definition item_object (item : ET.Element) : Py.object :=
  Py.PyDict
    [("title", Py.of_optstr (field item "title"));
     ("pubDate", Py.of_optstr (field item "pubDate"));
     ("link", Py.of_optstr (field item "link"));
     ("description", Py.of_optstr (field item "description"))].

(** The JSON document of a feed: four keys, in this order. *)
Definition feed_object (channel title link : ET.Element) (items : list ET.Element)
  : Py.object :=
  Py.PyDict
    [("title", Py.of_optstr (ET.text title));
     ("link", Py.of_optstr (ET.text link));
     ("description", Py.of_optstr (field channel "description"));
     ("items", Py.PyList (map item_object items))].

(** The keys of a JSON object, in order. *)
Definition keys (o : Py.object) : list string :=
  match o with
  | Py.PyDict d => map fst d
  | _ => []
  end.

(** ** The layout of the JSON text

    One member per line, each nesting level indented by two more spaces,
    members separated by a comma at the end of the line. *)

Definition LF : string := String (ascii_of_nat 10) "".

(** A string value between quotation marks, or [null]. *)
Definition json_value (v : Py.optstr) : string :=
  match v with
  | None => "null"
  | Some s => Json.encode_basestring s
  end.

(** A key, a colon, a space, the value. *)
Definition member (key value : string) : string :=
  Json.encode_basestring key ++ ": " ++ value.

(** An item object, at nesting depth two: members at six spaces, the
    closing brace at four. *)
Definition render_item (item : ET.Element) : string :=
  "{" ++ LF ++ "      "
    ++ String.concat ("," ++ LF ++ "      ")
         [member "title" (json_value (field item "title"));
          member "pubDate" (json_value (field item "pubDate"));
          member "link" (json_value (field item "link"));
          member "description" (json_value (field item "description"))]
    ++ LF ++ "    }".

(** The list of item objects: objects at four spaces, the closing bracket
    at two; an empty list takes no line of its own. *)
Definition render_items (items : list ET.Element) : string :=
  match items with
  | [] => "[]"
  | _ :: _ =>
      "[" ++ LF ++ "    "
        ++ String.concat ("," ++ LF ++ "    ") (map render_item items)
        ++ LF ++ "  ]"
  end.

(** The document: members at two spaces. *)
Definition render_feed (channel title link : ET.Element) (items : list ET.Element)
  : string :=
  "{" ++ LF ++ "  "
    ++ String.concat ("," ++ LF ++ "  ")
         [member "title" (json_value (ET.text title));
          member "link" (json_value (ET.text link));
          member "description" (json_value (field channel "description"));
          member "items" (render_items items)]
    ++ LF ++ "}".

(** The text [main] hands to [print] for a well-formed feed: the lines
    of the text output joined by line breaks, or the JSON document. *)
Definition printed_text (args : Cli.Namespace) (channel title link : ET.Element)
  : string :=
  if Cli.json args
  then Json.dumps (feed_object channel title link (kept_items channel (Cli.limit args)))
  else String.concat Cli.newline
         (channel_lines channel title link
            ++ flat_map item_block (kept_items channel (Cli.limit args)))%list.

(** ** The children that are read

    The tags [rss_parser] looks for among the children of the channel, in
    text mode and in JSON mode, and among the children of an item. *)

Definition channel_tags : list string :=
  ["title"; "link"; "category"; "item"; "lastBuildDate"; "pubDate";
   "language"; "managingEditor"; "description"].

Definition channel_tags_json : list string :=
  ["title"; "link"; "item"; "description"].

Definition item_tags : list string :=
  ["title"; "author"; "pubDate"; "link"; "category"; "description"].

Definition item_tags_json : list string :=
  ["title"; "pubDate"; "link"; "description"].

(** The same for the children of the channel other than its items. *)
Definition channel_scalar_tags : list string :=
  ["title"; "link"; "category"; "lastBuildDate"; "pubDate";
   "language"; "managingEditor"; "description"].

Definition channel_scalar_tags_json : list string :=
  ["title"; "link"; "description"].

Definition has_tag_in (tags : list string) (e : ET.Element) : bool :=
  existsb (String.eqb (ET.tag e)) tags.

(** The children of an element whose tag is one of [tags], in document
    order. *)
Definition children_tagged (tags : list string) (e : ET.Element) : list ET.Element :=
  filter (has_tag_in tags) (ET.children e).

(* ===================================================================== *)
(** * Example documents                                                   *)
(* ===================================================================== *)

Module Examples.

Definition leaf (tag : string) (text : option string) : ET.Element :=
  ET.mkElement tag text None [].

Definition node (tag : string) (children : list ET.Element) : ET.Element :=
  ET.mkElement tag None None children.

(** The minimal feed: a channel with a title, a link and a description,
    and no item. *)
Definition minimal : string :=
  "<rss><channel><title>T</title><link>L</link><description>D</description></channel></rss>".

Definition minimal_title : ET.Element := leaf "title" (Some "T").
Definition minimal_link : ET.Element := leaf "link" (Some "L").
Definition minimal_channel : ET.Element :=
  node "channel" [minimal_title; minimal_link; leaf "description" (Some "D")].
Definition minimal_root : ET.Element := node "rss" [minimal_channel].

(** A document that ends inside its channel element. *)
Definition unclosed : string := "<rss><channel>".

(** Documents that lack the channel, its title, or its link. *)
Definition no_channel : string := "<rss><title>T</title><link>L</link></rss>".
Definition no_title : string := "<rss><channel><link>L</link></channel></rss>".
Definition no_link : string := "<rss><channel><title>T</title></channel></rss>".

(** A channel whose title and link elements have no text. *)
Definition empty_title_link : string :=
  "<rss><channel><title></title><link></link></channel></rss>".

(** Five items, told apart by their titles. *)
Definition five_items : string :=
  "<rss><channel><title>T</title><link>L</link><item><title>1</title></item><item><title>2</title></item><item><title>3</title></item><item><title>4</title></item><item><title>5</title></item></channel></rss>".

Definition titled (t : string) : ET.Element := node "item" [leaf "title" (Some t)].

Definition five_channel : ET.Element :=
  node "channel"
    [leaf "title" (Some "T"); leaf "link" (Some "L");
     titled "1"; titled "2"; titled "3"; titled "4"; titled "5"].

(** An item whose pubDate element has no text, and the same item without
    the element. *)
Definition empty_pubDate : string :=
  "<rss><channel><title>T</title><link>L</link><item><title>A</title><pubDate></pubDate></item></channel></rss>".

Definition without_pubDate : string :=
  "<rss><channel><title>T</title><link>L</link><item><title>A</title></item></channel></rss>".

(** An item whose title element has no text, and an item without one. *)
Definition empty_item_title : string :=
  "<rss><channel><title>T</title><link>L</link><item><title></title></item></channel></rss>".

Definition without_item_title : string :=
  "<rss><channel><title>T</title><link>L</link><item></item></channel></rss>".

(** A channel with one category whose text is a single space. *)
Definition blank_category : string :=
  "<rss><channel><title>T</title><link>L</link><category> </category></channel></rss>".

Definition blank_channel : ET.Element :=
  node "channel"
    [leaf "title" (Some "T"); leaf "link" (Some "L"); leaf "category" (Some " ")].

(** An item with an author and two categories. *)
Definition with_author : string :=
  "<rss><channel><title>T</title><link>L</link><item><title>N</title><author>A</author><category>c1</category><category>c2</category></item></channel></rss>".

Definition author_item : ET.Element :=
  node "item"
    [leaf "title" (Some "N"); leaf "author" (Some "A");
     leaf "category" (Some "c1"); leaf "category" (Some "c2")].

Definition author_channel : ET.Element :=
  node "channel" [leaf "title" (Some "T"); leaf "link" (Some "L"); author_item].

(** Collaborators of [main] for a run on one document: the arguments
    parse to [args] and the fetch returns [xml]. *)
Definition args_of (args : Cli.Namespace) (argv : option (list string))
  : (string * unit) + Cli.Namespace := inr args.

Definition fetch_of (xml : string) (source : option string) : unit + string :=
  inr xml.

(** A fetch that fails. *)
Definition fetch_fails (source : option string) : unit + string := inl tt.

(** A standard output that takes every write, and one that takes none
    and raises. *)
Definition print_succeeds (stdout s : string) : option (string * unit) := None.

Definition print_raises (stdout s : string) : option (string * unit) := Some ("", tt).

(** An item whose title and description elements have no text. *)
Definition empty_title_and_description : string :=
  "<rss><channel><title>T</title><link>L</link><item><title></title><description></description></item></channel></rss>".

(** The minimal feed with a comment-like stranger among the channel's
    children. *)
Definition minimal_with_stranger : string :=
  "<rss><channel><title>T</title><generator>G</generator><link>L</link><description>D</description></channel></rss>".

(** The minimal feed with a category and a language in its channel. *)
Definition blank_category_with_description : string :=
  "<rss><channel><title>T</title><category>c</category><language>en</language><link>L</link><description>D</description></channel></rss>".

(** The feed with one titled item, and the same feed with a guid in the
    item. *)
Definition one_item : string :=
  "<rss><channel><title>T</title><link>L</link><item><title>N</title></item></channel></rss>".

Definition one_item_with_guid : string :=
  "<rss><channel><title>T</title><link>L</link><item><title>N</title><guid>g</guid></item></channel></rss>".

Definition one_item_channel : ET.Element :=
  node "channel"
    [leaf "title" (Some "T"); leaf "link" (Some "L");
     node "item" [leaf "title" (Some "N")]].

Definition one_item_with_guid_channel : ET.Element :=
  node "channel"
    [leaf "title" (Some "T"); leaf "link" (Some "L");
     node "item" [leaf "title" (Some "N"); leaf "guid" (Some "g")]].

(** JSON text written with apostrophes where the quotation marks are. *)
Fixpoint dq (s : string) : string :=
  match s with
  | EmptyString => EmptyString
  | String c rest => String (if Ascii.eqb c "'" then ascii_of_nat 34 else c) (dq rest)
  end.

End Examples.

(* ===================================================================== *)
(** * Properties of the built-ins                                         *)
(* ===================================================================== *)

(** The parser on small documents: text and tail, entity references,
    white space in tags, and the three kinds of malformed input it
    reports, each at expat's position. *)
Example parse_text_and_tail :
  ET.parse "<a> <b> x </b> y <c/> z</a>"
  = ET.Parsed
      (ET.mkElement "a" (Some " ") None
         [ET.mkElement "b" (Some " x ") (Some " y ") [];
          ET.mkElement "c" None (Some " z") []]).
Proof. vm_compute. reflexivity. Qed.

Example parse_entities :
  ET.parse "<a>&lt;x&amp;y&gt;</a>" = ET.Parsed (ET.mkElement "a" (Some "<x&y>") None []).
Proof. vm_compute. reflexivity. Qed.

Example parse_empty_element_has_no_text :
  ET.parse "<a></a >" = ET.Parsed (ET.mkElement "a" None None [])
  /\ ET.parse " <a/> " = ET.Parsed (ET.mkElement "a" None None []).
Proof. split; vm_compute; reflexivity. Qed.

Example parse_mismatched_tag :
  ET.parse "<a><b></a></b>"
  = ET.Malformed (ET.mkParseError ET.XML_ERROR_TAG_MISMATCH (1, 8)).
Proof. vm_compute. reflexivity. Qed.

Example parse_unclosed_token :
  ET.parse "<a><b" = ET.Malformed (ET.mkParseError ET.XML_ERROR_UNCLOSED_TOKEN (1, 3)).
Proof. vm_compute. reflexivity. Qed.

Example parse_junk_after_root :
  ET.parse "<a><b/></a><c/>"
  = ET.Malformed (ET.mkParseError ET.XML_ERROR_JUNK_AFTER_DOC_ELEMENT (1, 11)).
Proof. vm_compute. reflexivity. Qed.

Example parse_attribute_is_outside_the_fragment :
  ET.parse "<a b='1'/>" = ET.Unmodelled.
Proof. vm_compute. reflexivity. Qed.

(** Slices of a five-element list. *)
Example slice_to_examples :
  Py.slice_to [1; 2; 3; 4; 5] 2 = [1; 2]
  /\ Py.slice_to [1; 2; 3; 4; 5] 9 = [1; 2; 3; 4; 5]
  /\ Py.slice_to [1; 2; 3; 4; 5] 0 = []
  /\ Py.slice_to [1; 2; 3; 4; 5] (-1) = [1; 2; 3; 4]
  /\ Py.slice_to [1; 2; 3; 4; 5] (-7) = [].
Proof. repeat split. Qed.

Lemma join_from_strings (sep : string) (l : list string) :
  forall i, Py.join_from i sep (map Some l) = Py.Ok (String.concat sep l).
Proof.
  induction l as [|s rest IH]; intros i; [reflexivity|].
  destruct rest as [|s' rest']; [reflexivity|].
  change (map Some (s :: s' :: rest')) with (Some s :: map Some (s' :: rest')).
  cbn [Py.join_from]. change (Some s' :: map Some rest') with (map Some (s' :: rest')).
  rewrite IH. reflexivity.
Qed.

Lemma join_strings (sep : string) (l : list string) :
  Py.join sep (map Some l) = Py.Ok (String.concat sep l).
Proof. apply join_from_strings. Qed.

Lemma truthy_texts_values (l : list ET.Element) :
  truthy_texts l = map Some (filter (fun s => negb (String.eqb s "")) (texts l)).
Proof.
  unfold truthy_texts, texts.
  induction l as [|e rest IH]; [reflexivity|].
  cbn [filter flat_map]. unfold Py.truthy at 1.
  destruct (ET.text e) as [s|] eqn:Et; cbn [app filter].
  - destruct (String.eqb s "") eqn:Es; cbn [negb map].
    + exact IH.
    + rewrite Et, IH. reflexivity.
  - exact IH.
Qed.

Lemma category_values_spec (e : ET.Element) (v : string) :
  In v (category_values e) <-> In v (category_texts e) /\ v <> "".
Proof.
  unfold category_values. rewrite filter_In, negb_true_iff, String.eqb_neq.
  reflexivity.
Qed.

Lemma category_values_nonempty (e : ET.Element) (v : string) :
  In v (category_values e) -> v <> "".
Proof. intros H. apply category_values_spec in H. apply H. Qed.

Lemma concat_nonempty (sep : string) (l : list string) :
  l <> [] -> (forall v, In v l -> v <> "") -> String.concat sep l <> "".
Proof.
  destruct l as [|x rest]; [congruence|]. intros _ Hall.
  assert (Hx : x <> "") by (apply Hall; left; reflexivity).
  destruct x as [|c x']; [congruence|].
  destruct rest; cbn; discriminate.
Qed.

Lemma truthy_concat_values (e : ET.Element) :
  optional_line "Categories: " (Some (String.concat ", " (category_values e)))
  = categories_line (category_values e).
Proof.
  unfold optional_line, categories_line, Py.truthy.
  destruct (category_values e) as [|v vs] eqn:E; [reflexivity|].
  destruct (String.eqb (String.concat ", " (v :: vs)) "") eqn:Ec; [|reflexivity].
  apply String.eqb_eq in Ec. exfalso. revert Ec. apply concat_nonempty; [discriminate|].
  intros w Hw. apply (category_values_nonempty e). rewrite E. exact Hw.
Qed.

(* ===================================================================== *)
(** * The two loops                                                       *)
(* ===================================================================== *)

Lemma append_if_optional (output : list string) (label : string) (v : Py.optstr) :
  append_if output label v = (output ++ optional_line label v)%list.
Proof.
  unfold append_if, optional_line, Py.append.
  destruct (Py.truthy v); [reflexivity|]. symmetry. apply app_nil_r.
Qed.

Lemma append_if_text_present (output : list string) (label : string)
  (found : option ET.Element) :
  append_if_text output label found = (output ++ present_line label found)%list.
Proof.
  unfold append_if_text, present_line, optional_line, Py.append.
  destruct found as [e|]; [|symmetry; apply app_nil_r].
  destruct (Py.truthy (ET.text e)); [reflexivity|]. symmetry. apply app_nil_r.
Qed.

(** One pass of the text loop appends the item's block. *)
Lemma text_item_block (output : list string) (item : ET.Element) :
  text_item output item = Py.Ok (output ++ item_block item)%list.
Proof.
  unfold text_item.
  rewrite truthy_texts_values.
  change (filter (fun s => negb (String.eqb s "")) (texts (ET.findall item "category")))
    with (category_values item).
  rewrite join_strings. cbn [Py.bind].
  rewrite !append_if_optional, truthy_concat_values.
  unfold Py.append, item_block, item_block_with, field, text_if_present.
  repeat rewrite <- app_assoc. reflexivity.
Qed.

Lemma for_each_text_items (items : list ET.Element) :
  forall output,
    Py.for_each text_item items output
    = Py.Ok (output ++ flat_map item_block items)%list.
Proof.
  induction items as [|item rest IH]; intros output; cbn [Py.for_each flat_map].
  - rewrite app_nil_r. reflexivity.
  - rewrite text_item_block. cbn [Py.bind]. rewrite IH, <- app_assoc. reflexivity.
Qed.

(** One pass of the JSON loop appends the item's object to the list under
    'items' and leaves the other three entries alone. *)
Lemma json_item_appends (a b c : Py.object) (acc : list Py.object) (item : ET.Element) :
  json_item [("title", a); ("link", b); ("description", c); ("items", Py.PyList acc)] item
  = Py.Ok [("title", a); ("link", b); ("description", c);
           ("items", Py.PyList (acc ++ [item_object item]))].
Proof. reflexivity. Qed.

Lemma for_each_json_items (a b c : Py.object) (items : list ET.Element) :
  forall acc,
    Py.for_each json_item items
      [("title", a); ("link", b); ("description", c); ("items", Py.PyList acc)]
    = Py.Ok [("title", a); ("link", b); ("description", c);
             ("items", Py.PyList (acc ++ map item_object items))].
Proof.
  induction items as [|item rest IH]; intros acc; cbn [Py.for_each map].
  - rewrite app_nil_r. reflexivity.
  - rewrite json_item_appends. cbn [Py.bind]. rewrite IH, <- app_assoc. reflexivity.
Qed.

(* ===================================================================== *)
(** * The output of rss_parser on a well-formed feed                      *)
(* ===================================================================== *)

Section Output.

Variable fromstring : string -> ET.ParseError + ET.Element.

Lemma text_mode_output (xml : string) (limit : option Z) (channel title link : ET.Element) :
  well_formed_feed fromstring xml channel title link ->
  rss_parser fromstring xml limit false
  = Py.Ok (channel_lines channel title link
             ++ flat_map item_block (kept_items channel limit))%list.
Proof.
  intros [root [Hroot [Hch [Ht Hl]]]].
  unfold rss_parser, try_block, call_fromstring.
  rewrite Hroot. cbn [Py.bind]. rewrite Hch. cbn [Py.find Py.bind].
  rewrite Ht, Hl. cbn [Py.text Py.findall Py.bind].
  rewrite truthy_texts_values.
  change (filter (fun s => negb (String.eqb s "")) (texts (ET.findall channel "category")))
    with (category_values channel).
  unfold channel_lines, channel_lines_with.
  destruct (category_values channel) as [|v vs]; cbn [map categories_line];
    [|change (Some v :: map Some vs) with (map Some (v :: vs)); rewrite join_strings];
    cbn [Py.bind]; rewrite !append_if_text_present;
    fold (kept_items channel limit); rewrite for_each_text_items;
    unfold Py.append; repeat rewrite <- app_assoc; reflexivity.
Qed.

Lemma json_mode_output (xml : string) (limit : option Z) (channel title link : ET.Element) :
  well_formed_feed fromstring xml channel title link ->
  rss_parser fromstring xml limit true
  = Py.Ok [Json.dumps (feed_object channel title link (kept_items channel limit))].
Proof.
  intros [root [Hroot [Hch [Ht Hl]]]].
  unfold rss_parser, try_block, call_fromstring.
  rewrite Hroot. cbn [Py.bind]. rewrite Hch. cbn [Py.find Py.bind].
  rewrite Ht, Hl. cbn [Py.text Py.findall Py.bind].
  fold (kept_items channel limit).
  change (Py.dict_display
            [("title", Py.of_optstr (ET.text title));
             ("link", Py.of_optstr (ET.text link));
             ("description", Py.of_optstr (text_if_present (ET.find channel "description")));
             ("items", Py.PyList [])])
    with [("title", Py.of_optstr (ET.text title));
          ("link", Py.of_optstr (ET.text link));
          ("description", Py.of_optstr (field channel "description"));
          ("items", Py.PyList [])].
  rewrite for_each_json_items. reflexivity.
Qed.

End Output.

(* ===================================================================== *)
(** * Errors                                                              *)
(* ===================================================================== *)

Section Errors.

Variable fromstring : string -> ET.ParseError + ET.Element.

(** A document that does not parse: the [ParseError] is caught and
    re-raised inside an [UnhandledException]. *)
Lemma rss_parser_wraps (xml : string) (limit : option Z) (json : bool)
  (e : ET.ParseError) :
  fromstring xml = inl e ->
  rss_parser fromstring xml limit json
  = Py.Raise (Py.UnhandledException (Py.ParseError e)).
Proof.
  intros H. unfold rss_parser, try_block, call_fromstring. rewrite H. reflexivity.
Qed.

(** A document whose root has no channel child: the call [channel.find]
    on [None] fails. *)
Lemma rss_parser_no_channel (xml : string) (limit : option Z) (json : bool)
  (root : ET.Element) :
  fromstring xml = inr root ->
  ET.find root "channel" = None ->
  rss_parser fromstring xml limit json = Py.Raise (Py.no_attribute "find").
Proof.
  intros Hroot Hch. unfold rss_parser, try_block, call_fromstring.
  rewrite Hroot. cbn [Py.bind]. rewrite Hch. reflexivity.
Qed.

(** A channel with no title child: reading [.text] of [None] fails. *)
Lemma rss_parser_no_title (xml : string) (limit : option Z) (json : bool)
  (root channel : ET.Element) :
  fromstring xml = inr root ->
  ET.find root "channel" = Some channel ->
  ET.find channel "title" = None ->
  rss_parser fromstring xml limit json = Py.Raise (Py.no_attribute "text").
Proof.
  intros Hroot Hch Ht. unfold rss_parser, try_block, call_fromstring.
  rewrite Hroot. cbn [Py.bind]. rewrite Hch. cbn [Py.find Py.bind].
  rewrite Ht. reflexivity.
Qed.

(** A channel with a title and no link child: the same failure, one line
    later. *)
Lemma rss_parser_no_link (xml : string) (limit : option Z) (json : bool)
  (root channel title : ET.Element) :
  fromstring xml = inr root ->
  ET.find root "channel" = Some channel ->
  ET.find channel "title" = Some title ->
  ET.find channel "link" = None ->
  rss_parser fromstring xml limit json = Py.Raise (Py.no_attribute "text").
Proof.
  intros Hroot Hch Ht Hl. unfold rss_parser, try_block, call_fromstring.
  rewrite Hroot. cbn [Py.bind]. rewrite Hch. cbn [Py.find Py.bind].
  rewrite Ht. cbn [Py.text Py.bind]. rewrite Hl. reflexivity.
Qed.

(** Once the document parses, the call returns its lines or fails with an
    [AttributeError]; nothing else can happen. *)
Lemma rss_parser_parsed (xml : string) (limit : option Z) (json : bool)
  (root : ET.Element) :
  fromstring xml = inr root ->
  (exists out, rss_parser fromstring xml limit json = Py.Ok out)
  \/ (exists msg, rss_parser fromstring xml limit json = Py.Raise (Py.AttributeError msg)).
Proof.
  intros Hroot.
  destruct (ET.find root "channel") as [channel|] eqn:Hch;
    [|right; eexists; apply (rss_parser_no_channel _ _ _ root); assumption].
  destruct (ET.find channel "title") as [title|] eqn:Ht;
    [|right; eexists; apply (rss_parser_no_title _ _ _ root channel); assumption].
  destruct (ET.find channel "link") as [link|] eqn:Hl;
    [|right; eexists; apply (rss_parser_no_link _ _ _ root channel title); assumption].
  left.
  assert (Hwf : well_formed_feed fromstring xml channel title link)
    by (exists root; auto).
  destruct json; eexists.
  - apply (json_mode_output fromstring xml limit channel title link Hwf).
  - apply (text_mode_output fromstring xml limit channel title link Hwf).
Qed.

End Errors.

(* ===================================================================== *)
(** * Malformed documents and missing elements                            *)
(* ===================================================================== *)

(** C1.  When the XML library rejects the document, [rss_parser] fails,
    whatever the limit and the mode, with the application's exception
    wrapping the library's [ParseError], and the message of the one is
    the message of the other.  No other run ends in that exception: it
    is raised only for a document the library rejects.  The document
    [<rss><channel>] is rejected with expat's diagnostic for a missing
    end, so [rss_parser] fails on it in this way.  (The source names the
    application's exception [UnhandledException].) *)
Theorem malformed_xml_raises_wrapped_parse_error :
  forall (fromstring : string -> ET.ParseError + ET.Element)
         (xml : string) (limit : option Z) (json : bool),
    (forall e,
        fromstring xml = inl e ->
        rss_parser fromstring xml limit json
        = Py.Raise (Py.UnhandledException (Py.ParseError e))
        /\ Py.str (Py.UnhandledException (Py.ParseError e)) = ET.ParseError_str e)
    /\ (forall x,
          rss_parser fromstring xml limit json = Py.Raise (Py.UnhandledException x) ->
          exists e, fromstring xml = inl e /\ x = Py.ParseError e)
    /\ ET.parse Examples.unclosed
       = ET.Malformed (ET.mkParseError ET.XML_ERROR_NO_ELEMENTS (1, 14))
    /\ rss_parser ET.fromstring Examples.unclosed None false
       = Py.Raise (Py.UnhandledException
                     (Py.ParseError (ET.mkParseError ET.XML_ERROR_NO_ELEMENTS (1, 14))))
    /\ ET.ParseError_str (ET.mkParseError ET.XML_ERROR_NO_ELEMENTS (1, 14))
       = "no element found: line 1, column 14".
Proof.
  intros fromstring xml limit json. split; [|split; [|split; [|split]]].
  - intros e He. split; [|reflexivity].
    apply rss_parser_wraps. exact He.
  - intros x Hx. destruct (fromstring xml) as [e|root] eqn:Hparse.
    + exists e. split; [reflexivity|].
      rewrite (rss_parser_wraps fromstring xml limit json e Hparse) in Hx.
      injection Hx as Hx. symmetry. exact Hx.
    + exfalso.
      destruct (rss_parser_parsed fromstring xml limit json root Hparse)
        as [[out Hout]|[msg Hmsg]]; rewrite Hx in *; discriminate.
  - vm_compute. reflexivity.
  - apply rss_parser_wraps. vm_compute. reflexivity.
  - vm_compute. reflexivity.
Qed.

(** C9.  When the document parses and its root has no [channel] child, or
    the channel has no [title] child or no [link] child, [rss_parser]
    fails, whatever the limit and the mode, with the [AttributeError] of
    a call of [find] or a read of [text] on [None]; the failure is not
    wrapped in an [UnhandledException]. *)
Theorem missing_channel_title_or_link_raises_attribute_error :
  forall (fromstring : string -> ET.ParseError + ET.Element)
         (xml : string) (limit : option Z) (json : bool) (root : ET.Element),
    fromstring xml = inr root ->
    (ET.find root "channel" = None
     \/ exists channel,
          ET.find root "channel" = Some channel
          /\ (ET.find channel "title" = None \/ ET.find channel "link" = None)) ->
    (exists name,
        (name = "find" \/ name = "text")
        /\ rss_parser fromstring xml limit json
           = Py.Raise (Py.AttributeError
                         ("'NoneType' object has no attribute '" ++ name ++ "'")))
    /\ (forall x, rss_parser fromstring xml limit json
                  <> Py.Raise (Py.UnhandledException x)).
Proof.
  intros fromstring xml limit json root Hroot Hmissing.
  assert (H : exists name,
             (name = "find" \/ name = "text")
             /\ rss_parser fromstring xml limit json = Py.Raise (Py.no_attribute name)).
  { destruct Hmissing as [Hch|[channel [Hch Hfield]]].
    - exists "find". split; [left; reflexivity|].
      apply (rss_parser_no_channel fromstring xml limit json root Hroot Hch).
    - exists "text". split; [right; reflexivity|].
      destruct (ET.find channel "title") as [title|] eqn:Ht.
      + destruct Hfield as [Habs|Hl]; [discriminate Habs|].
        apply (rss_parser_no_link fromstring xml limit json root channel title);
          assumption.
      + apply (rss_parser_no_title fromstring xml limit json root channel);
          assumption. }
  split.
  - exact H.
  - intros x Hx. destruct H as [name [_ Hname]].
    rewrite Hname in Hx. discriminate Hx.
Qed.

Lemma missing_channel_title_or_link_witness :
  (exists name,
      (name = "find" \/ name = "text")
      /\ rss_parser ET.fromstring Examples.no_title (Some 3%Z) true
         = Py.Raise (Py.AttributeError
                       ("'NoneType' object has no attribute '" ++ name ++ "'")))
  /\ (forall x, rss_parser ET.fromstring Examples.no_title (Some 3%Z) true
                <> Py.Raise (Py.UnhandledException x)).
Proof.
  apply (missing_channel_title_or_link_raises_attribute_error
           ET.fromstring Examples.no_title (Some 3%Z) true
           (Examples.node "rss"
              [Examples.node "channel" [Examples.leaf "link" (Some "L")]])).
  - vm_compute. reflexivity.
  - right. exists (Examples.node "channel" [Examples.leaf "link" (Some "L")]).
    split; [reflexivity|]. left. reflexivity.
Defined.

(** C10.  On a well-formed feed in text mode the first two lines are the
    [Feed:] and [Link:] lines, always.  When the channel's title element
    has no text the first line is [Feed: None]; when its link element has
    no text the second line is [Link: None]. *)
Theorem empty_channel_title_or_link_renders_None :
  forall (fromstring : string -> ET.ParseError + ET.Element)
         (xml : string) (limit : option Z) (channel title link : ET.Element),
    well_formed_feed fromstring xml channel title link ->
    exists feed_line link_line rest,
      rss_parser fromstring xml limit false
      = Py.Ok (feed_line :: link_line :: rest)
      /\ feed_line = Py.fstring "Feed: " (ET.text title)
      /\ link_line = Py.fstring "Link: " (ET.text link)
      /\ (ET.text title = None -> feed_line = "Feed: None")
      /\ (ET.text link = None -> link_line = "Link: None").
Proof.
  intros fromstring xml limit channel title link Hwf.
  rewrite (text_mode_output fromstring xml limit channel title link Hwf).
  unfold channel_lines, channel_lines_with. cbn [app].
  eexists. eexists. eexists. split; [reflexivity|].
  split; [reflexivity|]. split; [reflexivity|].
  split; intros ->; reflexivity.
Qed.

Lemma empty_channel_title_or_link_witness :
  exists feed_line link_line rest,
    rss_parser ET.fromstring Examples.empty_title_link None false
    = Py.Ok (feed_line :: link_line :: rest)
    /\ feed_line = Py.fstring "Feed: " (ET.text (Examples.leaf "title" None))
    /\ link_line = Py.fstring "Link: " (ET.text (Examples.leaf "link" None))
    /\ (ET.text (Examples.leaf "title" None) = None -> feed_line = "Feed: None")
    /\ (ET.text (Examples.leaf "link" None) = None -> link_line = "Link: None").
Proof.
  apply (empty_channel_title_or_link_renders_None
           ET.fromstring Examples.empty_title_link None
           (Examples.node "channel" [Examples.leaf "title" None; Examples.leaf "link" None])
           (Examples.leaf "title" None) (Examples.leaf "link" None)).
  exists (Examples.node "rss"
            [Examples.node "channel"
               [Examples.leaf "title" None; Examples.leaf "link" None]]).
  split; [vm_compute; reflexivity|]. repeat split.
Defined.

(* ===================================================================== *)
(** * The minimal feed                                                    *)
(* ===================================================================== *)

(** C7.  The document
    [<rss><channel><title>T</title><link>L</link><description>D</description></channel></rss>]
    parses to a root with one channel of three children, and on it
    [rss_parser], without a limit and in text mode, returns exactly the
    three lines [Feed: T], [Link: L], [Description: D]. *)
Theorem minimal_feed_three_lines :
  ET.parse Examples.minimal = ET.Parsed Examples.minimal_root
  /\ rss_parser ET.fromstring Examples.minimal None false
     = Py.Ok ["Feed: T"; "Link: L"; "Description: D"]
  /\ (forall fromstring : string -> ET.ParseError + ET.Element,
         fromstring Examples.minimal = inr Examples.minimal_root ->
         rss_parser fromstring Examples.minimal None false
         = Py.Ok ["Feed: T"; "Link: L"; "Description: D"]).
Proof.
  assert (Hparse : ET.parse Examples.minimal = ET.Parsed Examples.minimal_root)
    by (vm_compute; reflexivity).
  assert (Hany : forall fromstring : string -> ET.ParseError + ET.Element,
             fromstring Examples.minimal = inr Examples.minimal_root ->
             rss_parser fromstring Examples.minimal None false
             = Py.Ok ["Feed: T"; "Link: L"; "Description: D"]).
  { intros fromstring Hroot.
    rewrite (text_mode_output fromstring Examples.minimal None
               Examples.minimal_channel Examples.minimal_title Examples.minimal_link).
    - reflexivity.
    - exists Examples.minimal_root. repeat split. exact Hroot. }
  split; [exact Hparse|]. split; [|exact Hany].
  apply Hany. unfold ET.fromstring. rewrite Hparse. reflexivity.
Qed.

(** The result depends on the parsed document through its channel
    element only: the root's tag, its other children and the text around
    them are never read. *)
Lemma rss_parser_reads_channel_only
  (fromstring1 fromstring2 : string -> ET.ParseError + ET.Element)
  (xml1 xml2 : string) (limit : option Z) (json : bool) (root1 root2 : ET.Element) :
  fromstring1 xml1 = inr root1 -> fromstring2 xml2 = inr root2 ->
  ET.find root1 "channel" = ET.find root2 "channel" ->
  rss_parser fromstring1 xml1 limit json = rss_parser fromstring2 xml2 limit json.
Proof.
  intros H1 H2 Hch. unfold rss_parser, try_block, call_fromstring.
  rewrite H1, H2. cbn [Py.bind]. rewrite Hch. reflexivity.
Qed.

(* ===================================================================== *)
(** * The limit                                                           *)
(* ===================================================================== *)

Section Slice.

Context {A : Type}.

Lemma slice_to_firstn (l : list A) (stop : Z) :
  (0 <= stop)%Z -> Py.slice_to l stop = firstn (Z.to_nat stop) l.
Proof.
  intros Hstop. unfold Py.slice_to.
  destruct (Z.ltb_spec stop 0) as [Hneg|_]; [lia|].
  destruct (Z.le_gt_cases stop (Z.of_nat (length l))) as [Hle|Hgt].
  - rewrite Z.min_l by exact Hle. reflexivity.
  - rewrite Z.min_r by lia. rewrite Nat2Z.id.
    rewrite firstn_all. symmetry. apply firstn_all2. lia.
Qed.

Lemma slice_to_all (l : list A) (stop : Z) :
  (Z.of_nat (length l) <= stop)%Z -> Py.slice_to l stop = l.
Proof.
  intros Hge. rewrite slice_to_firstn by lia. apply firstn_all2. lia.
Qed.

Lemma slice_to_zero (l : list A) : Py.slice_to l 0 = [].
Proof. rewrite slice_to_firstn by lia. reflexivity. Qed.

Lemma slice_to_prefix (l : list A) (stop : Z) :
  (0 < stop < Z.of_nat (length l))%Z ->
  Py.slice_to l stop = firstn (Z.to_nat stop) l
  /\ length (Py.slice_to l stop) = Z.to_nat stop.
Proof.
  intros [Hpos Hlt]. rewrite slice_to_firstn by lia.
  split; [reflexivity|]. rewrite length_firstn. lia.
Qed.

(** A negative stop drops that many items from the end. *)
Lemma slice_to_negative (l : list A) (stop : Z) :
  (stop < 0)%Z ->
  Py.slice_to l stop = firstn (length l - Z.to_nat (- stop)) l.
Proof.
  intros Hneg. unfold Py.slice_to.
  destruct (Z.ltb_spec stop 0) as [_|Hge]; [|lia].
  f_equal. lia.
Qed.

Lemma length_slice_to_negative (l : list A) (stop : Z) :
  (stop < 0)%Z ->
  length (Py.slice_to l stop) = length l - Z.to_nat (- stop).
Proof.
  intros Hneg. rewrite slice_to_negative by exact Hneg.
  rewrite length_firstn. lia.
Qed.

(** Whatever the stop, the slice is a prefix. *)
Lemma slice_to_is_prefix (l : list A) (stop : Z) :
  exists n, Py.slice_to l stop = firstn n l.
Proof. unfold Py.slice_to. eexists. reflexivity. Qed.

End Slice.

(** The part of the limit's contract that holds: no limit keeps every
    item, a limit at or above the number of items keeps every item, the
    limit zero keeps none, and a limit strictly between keeps that many
    items from the front. *)
Lemma kept_items_by_limit (channel : ET.Element) :
  let items := ET.findall channel "item" in
  kept_items channel None = items
  /\ (forall stop, (Z.of_nat (length items) <= stop)%Z ->
                   kept_items channel (Some stop) = items)
  /\ kept_items channel (Some 0%Z) = []
  /\ (forall stop, (0 < stop < Z.of_nat (length items))%Z ->
                   kept_items channel (Some stop) = firstn (Z.to_nat stop) items).
Proof.
  cbn zeta. unfold kept_items. split; [reflexivity|]. split; [|split].
  - intros stop H. apply slice_to_all. exact H.
  - apply slice_to_zero.
  - intros stop H. apply slice_to_prefix. exact H.
Qed.

(** C2, at a negative limit.  The feed of five items read with the limit
    minus one: the slice keeps the first four items, so the output holds
    four item blocks and not none.  In general a negative limit drops
    that many items from the end of the list and keeps the rest. *)
Theorem negative_limit_keeps_items :
  length (kept_items Examples.five_channel (Some (-1)%Z)) = 4
  /\ rss_parser ET.fromstring Examples.five_items (Some (-1)%Z) false
     = Py.Ok ["Feed: T"; "Link: L";
              "Title: 1"; ""; "Description: "; "";
              "Title: 2"; ""; "Description: "; "";
              "Title: 3"; ""; "Description: "; "";
              "Title: 4"; ""; "Description: "; ""]
  /\ (forall (channel : ET.Element) (stop : Z),
         (stop < 0)%Z ->
         length (kept_items channel (Some stop))
         = length (ET.findall channel "item") - Z.to_nat (- stop)).
Proof.
  split; [reflexivity|]. split.
  - rewrite (text_mode_output ET.fromstring Examples.five_items (Some (-1)%Z)
               Examples.five_channel
               (Examples.leaf "title" (Some "T")) (Examples.leaf "link" (Some "L"))).
    + reflexivity.
    + exists (Examples.node "rss" [Examples.five_channel]).
      split; [vm_compute; reflexivity|]. repeat split.
  - intros channel stop Hneg. unfold kept_items.
    apply length_slice_to_negative. exact Hneg.
Qed.

(* ===================================================================== *)
(** * Fields without text                                                 *)
(* ===================================================================== *)

(** In text mode an optional field is left out both when its element is
    missing and when the element has no text. *)
Lemma optional_line_without_text (item : ET.Element) (label name : string) :
  (ET.find item name = None
   \/ exists e, ET.find item name = Some e /\ Py.truthy (ET.text e) = false) ->
  optional_line label (field item name) = [].
Proof.
  unfold optional_line, field.
  intros [->|[e [-> He]]]; [reflexivity|]. rewrite He. reflexivity.
Qed.

(** In JSON mode the value of a missing field is the empty string, and the
    value of a field whose element has no text is [None]. *)
Lemma json_value_of_field (item : ET.Element) (name : string) :
  (ET.find item name = None -> Py.of_optstr (field item name) = Py.PyStr "")
  /\ (forall e, ET.find item name = Some e -> ET.text e = None ->
                Py.of_optstr (field item name) = Py.PyNone).
Proof.
  unfold field. split.
  - intros ->. reflexivity.
  - intros e -> ->. reflexivity.
Qed.

(** C3, at an element without text.  In JSON mode the item with
    [<pubDate></pubDate>] gets the value null under the key pubDate, and
    the same item without the element gets the empty string, so the two
    documents are not the same.  In text mode an item with
    [<title></title>] gets the line [Title: None], and an item with no
    title gets the line [Title: ] with nothing after the colon and the
    space. *)
Theorem element_without_text_differs_from_missing :
  rss_parser ET.fromstring Examples.empty_pubDate None true
  = Py.Ok [Examples.dq "{
  'title': 'T',
  'link': 'L',
  'description': '',
  'items': [
    {
      'title': 'A',
      'pubDate': null,
      'link': '',
      'description': ''
    }
  ]
}"]
  /\ rss_parser ET.fromstring Examples.without_pubDate None true
     = Py.Ok [Examples.dq "{
  'title': 'T',
  'link': 'L',
  'description': '',
  'items': [
    {
      'title': 'A',
      'pubDate': '',
      'link': '',
      'description': ''
    }
  ]
}"]
  /\ rss_parser ET.fromstring Examples.empty_pubDate None true
     <> rss_parser ET.fromstring Examples.without_pubDate None true
  /\ rss_parser ET.fromstring Examples.empty_item_title None false
     = Py.Ok ["Feed: T"; "Link: L"; "Title: None"; ""; "Description: "; ""]
  /\ rss_parser ET.fromstring Examples.without_item_title None false
     = Py.Ok ["Feed: T"; "Link: L"; "Title: "; ""; "Description: "; ""].
Proof.
  assert (Hempty :
    ET.fromstring Examples.empty_pubDate
    = inr (Examples.node "rss"
             [Examples.node "channel"
                [Examples.leaf "title" (Some "T"); Examples.leaf "link" (Some "L");
                 Examples.node "item"
                   [Examples.leaf "title" (Some "A"); Examples.leaf "pubDate" None]]]))
    by (vm_compute; reflexivity).
  assert (Hwithout :
    ET.fromstring Examples.without_pubDate
    = inr (Examples.node "rss"
             [Examples.node "channel"
                [Examples.leaf "title" (Some "T"); Examples.leaf "link" (Some "L");
                 Examples.node "item" [Examples.leaf "title" (Some "A")]]]))
    by (vm_compute; reflexivity).
  unfold rss_parser, try_block, call_fromstring.
  rewrite Hempty, Hwithout.
  split; [vm_compute; reflexivity|].
  split; [vm_compute; reflexivity|].
  split; [|split; vm_compute; reflexivity].
  vm_compute. intros H. discriminate H.
Qed.

(* ===================================================================== *)
(** * Categories                                                          *)
(* ===================================================================== *)

Lemma blank_category_feed :
  well_formed_feed ET.fromstring Examples.blank_category Examples.blank_channel
    (Examples.leaf "title" (Some "T")) (Examples.leaf "link" (Some "L")).
Proof.
  exists (Examples.node "rss" [Examples.blank_channel]).
  split; [vm_compute; reflexivity|]. repeat split.
Qed.

(** C4 as stated fails.  A channel whose only category has a single space
    as its text: the reading that drops whitespace-only texts asks for no
    [Categories:] line, and the output has the line, made of that
    space. *)
Lemma whitespace_only_category_is_kept :
  ~ excludes_blank_categories ET.fromstring.
Proof.
  intros Hclaim.
  specialize (Hclaim Examples.blank_category None Examples.blank_channel
                (Examples.leaf "title" (Some "T")) (Examples.leaf "link" (Some "L"))
                blank_category_feed).
  rewrite (text_mode_output ET.fromstring Examples.blank_category None
             Examples.blank_channel
             (Examples.leaf "title" (Some "T")) (Examples.leaf "link" (Some "L"))
             blank_category_feed) in Hclaim.
  vm_compute in Hclaim. discriminate Hclaim.
Qed.

(** C4, amended.  On a well-formed feed in text mode the [Categories:]
    line of the channel and of every kept item is made of the category
    values joined by a comma and a space, and is left out when there is
    no value.  The category values are the texts of the [category]
    children that are not the empty string, in document order: a child
    without text is dropped, a child whose text is whitespace is kept. *)
Theorem categories_exclude_empty_texts_only :
  forall (fromstring : string -> ET.ParseError + ET.Element)
         (xml : string) (limit : option Z) (channel title link : ET.Element),
    well_formed_feed fromstring xml channel title link ->
    rss_parser fromstring xml limit false
    = Py.Ok (channel_lines_with category_values channel title link
               ++ flat_map (item_block_with category_values)
                    (kept_items channel limit))%list
    /\ (forall e v, In v (category_values e) <-> In v (category_texts e) /\ v <> "")
    /\ (forall e, category_values e
                  = filter (fun s => negb (String.eqb s "")) (category_texts e))
    /\ (forall e, categories_line (category_values e) = []
                  <-> category_values e = []).
Proof.
  intros fromstring xml limit channel title link Hwf.
  split; [|split; [|split]].
  - apply (text_mode_output fromstring xml limit channel title link Hwf).
  - exact category_values_spec.
  - intros e. reflexivity.
  - intros e. unfold categories_line.
    destruct (category_values e); split; intros H; try reflexivity; discriminate H.
Qed.

Lemma categories_exclude_empty_texts_witness :
  rss_parser ET.fromstring Examples.blank_category None false
  = Py.Ok (channel_lines_with category_values Examples.blank_channel
             (Examples.leaf "title" (Some "T")) (Examples.leaf "link" (Some "L"))
             ++ flat_map (item_block_with category_values)
                  (kept_items Examples.blank_channel None))%list
  /\ (forall e v, In v (category_values e) <-> In v (category_texts e) /\ v <> "")
  /\ (forall e, category_values e
                = filter (fun s => negb (String.eqb s "")) (category_texts e))
  /\ (forall e, categories_line (category_values e) = []
                <-> category_values e = []).
Proof.
  apply (categories_exclude_empty_texts_only
           ET.fromstring Examples.blank_category None Examples.blank_channel
           (Examples.leaf "title" (Some "T")) (Examples.leaf "link" (Some "L"))).
  exists (Examples.node "rss" [Examples.blank_channel]).
  split; [vm_compute; reflexivity|]. repeat split.
Defined.

(** The output on the channel with the whitespace category, line by
    line. *)
Example blank_category_output :
  rss_parser ET.fromstring Examples.blank_category None false
  = Py.Ok ["Feed: T"; "Link: L"; "Categories:  "].
Proof.
  rewrite (text_mode_output _ _ _ _ _ _ blank_category_feed). reflexivity.
Qed.

(* ===================================================================== *)
(** * Text mode                                                           *)
(* ===================================================================== *)

(** The title of a kept item whose title element has no text is
    written as the word None, and so is its description. *)
Lemma item_without_text_lines
  (fromstring : string -> ET.ParseError + ET.Element)
  (xml : string) (limit : option Z) (channel title link item e : ET.Element)
  (name label : string) :
  well_formed_feed fromstring xml channel title link ->
  In item (kept_items channel limit) ->
  (name = "title" /\ label = "Title: "
   \/ name = "description" /\ label = "Description: ") ->
  ET.find item name = Some e -> ET.text e = None ->
  exists out,
    rss_parser fromstring xml limit false = Py.Ok out
    /\ In (label ++ "None") out.
Proof.
  intros Hwf Hin Hname Hfind Htext.
  eexists. split; [apply (text_mode_output fromstring xml limit channel title link Hwf)|].
  apply in_or_app. right. apply in_flat_map. exists item. split; [exact Hin|].
  unfold item_block, item_block_with. cbn [app].
  destruct Hname as [[-> ->]|[-> ->]].
  - left. unfold Py.fstring, field. rewrite Hfind, Htext. reflexivity.
  - right. do 4 (apply in_or_app; right). right. left.
    unfold Py.fstring, field. rewrite Hfind, Htext. reflexivity.
Qed.

(** C6, at an element without text.  An item with [<title></title>] and
    [<description></description>]: the block is the line [Title: None],
    an empty line, the line [Description: None] and an empty line, where
    an empty title and an empty description were to follow the colon.
    The same holds for every kept item of every well-formed feed whose
    title or description element has no text. *)
Theorem item_title_without_text_renders_None :
  rss_parser ET.fromstring Examples.empty_title_and_description None false
  = Py.Ok ["Feed: T"; "Link: L"; "Title: None"; ""; "Description: None"; ""]
  /\ (forall (fromstring : string -> ET.ParseError + ET.Element)
             (xml : string) (limit : option Z) (channel title link item e : ET.Element),
         well_formed_feed fromstring xml channel title link ->
         In item (kept_items channel limit) ->
         ET.find item "title" = Some e -> ET.text e = None ->
         exists out,
           rss_parser fromstring xml limit false = Py.Ok out
           /\ In "Title: None" out)
  /\ (forall (fromstring : string -> ET.ParseError + ET.Element)
             (xml : string) (limit : option Z) (channel title link item e : ET.Element),
         well_formed_feed fromstring xml channel title link ->
         In item (kept_items channel limit) ->
         ET.find item "description" = Some e -> ET.text e = None ->
         exists out,
           rss_parser fromstring xml limit false = Py.Ok out
           /\ In "Description: None" out).
Proof.
  split; [|split].
  - rewrite (text_mode_output ET.fromstring Examples.empty_title_and_description None
               (Examples.node "channel"
                  [Examples.leaf "title" (Some "T"); Examples.leaf "link" (Some "L");
                   Examples.node "item"
                     [Examples.leaf "title" None; Examples.leaf "description" None]])
               (Examples.leaf "title" (Some "T")) (Examples.leaf "link" (Some "L"))).
    + reflexivity.
    + eexists. split; [vm_compute; reflexivity|]. repeat split.
  - intros fromstring xml limit channel title link item e Hwf Hin Hfind Htext.
    apply (item_without_text_lines fromstring xml limit channel title link item e
             "title" "Title: " Hwf Hin); auto.
  - intros fromstring xml limit channel title link item e Hwf Hin Hfind Htext.
    apply (item_without_text_lines fromstring xml limit channel title link item e
             "description" "Description: " Hwf Hin); auto.
Qed.

(** X13.  On a well-formed feed in text mode the output is the lines of
    the channel followed by one block per kept item, the kept items being
    a prefix of the channel's items in document order.  The block of an
    item is: the title line; the [Author:], [Published:] and [Link:]
    lines, each only for a value that is neither missing nor without
    text nor empty; the [Categories:] line, only when the item has a
    category value; an empty line; the description line; an empty line.
    The title line is [Title: ] with nothing behind for an item without
    a title element, [Title: None] for a title element without text, and
    [Title: ] followed by the text otherwise; the description line goes
    the same way. *)
Theorem text_mode_blocks_render_field_values :
  forall (fromstring : string -> ET.ParseError + ET.Element)
         (xml : string) (limit : option Z) (channel title link : ET.Element),
    well_formed_feed fromstring xml channel title link ->
    (exists kept n,
        rss_parser fromstring xml limit false
        = Py.Ok (channel_lines channel title link ++ flat_map item_block kept)%list
        /\ kept = kept_items channel limit
        /\ kept = firstn n (ET.findall channel "item"))
    /\ (forall item,
           exists title_line description_line,
             item_block item
             = (title_line
                  :: optional_line "Author: " (field item "author")
                  ++ optional_line "Published: " (field item "pubDate")
                  ++ optional_line "Link: " (field item "link")
                  ++ categories_line (category_values item)
                  ++ [""; description_line; ""])%list
             /\ title_line
                = match ET.find item "title" with
                  | None => "Title: "
                  | Some e =>
                      match ET.text e with
                      | None => "Title: None"
                      | Some s => "Title: " ++ s
                      end
                  end
             /\ description_line
                = match ET.find item "description" with
                  | None => "Description: "
                  | Some e =>
                      match ET.text e with
                      | None => "Description: None"
                      | Some s => "Description: " ++ s
                      end
                  end)
    /\ (forall label v,
           optional_line label v
           = match v with
             | None => []
             | Some s => if String.eqb s "" then [] else [label ++ s]
             end)
    /\ (forall values,
           categories_line values
           = match values with
             | [] => []
             | _ :: _ => ["Categories: " ++ String.concat ", " values]
             end).
Proof.
  intros fromstring xml limit channel title link Hwf.
  split; [|split; [|split]].
  - exists (kept_items channel limit).
    destruct limit as [stop|].
    + destruct (slice_to_is_prefix (ET.findall channel "item") stop) as [n Hn].
      exists n. split; [|split; [reflexivity|exact Hn]].
      apply (text_mode_output fromstring xml (Some stop) channel title link Hwf).
    + exists (length (ET.findall channel "item")).
      split; [|split; [reflexivity|]].
      * apply (text_mode_output fromstring xml None channel title link Hwf).
      * cbn [kept_items]. symmetry. apply firstn_all.
  - intros item. eexists. eexists. split; [reflexivity|].
    unfold Py.fstring, field, Py.format.
    split.
    + destruct (ET.find item "title") as [e|]; [|reflexivity].
      destruct (ET.text e); reflexivity.
    + destruct (ET.find item "description") as [e|]; [|reflexivity].
      destruct (ET.text e); reflexivity.
  - intros label v. unfold optional_line, Py.truthy, Py.fstring, Py.format.
    destruct v as [s|]; [|reflexivity]. destruct (String.eqb s ""); reflexivity.
  - intros values. destruct values; reflexivity.
Qed.

Lemma text_mode_blocks_witness :
  (exists kept n,
      rss_parser ET.fromstring Examples.with_author None false
      = Py.Ok (channel_lines Examples.author_channel
                 (Examples.leaf "title" (Some "T")) (Examples.leaf "link" (Some "L"))
                 ++ flat_map item_block kept)%list
      /\ kept = kept_items Examples.author_channel None
      /\ kept = firstn n (ET.findall Examples.author_channel "item"))
  /\ (forall item,
         exists title_line description_line,
           item_block item
           = (title_line
                :: optional_line "Author: " (field item "author")
                ++ optional_line "Published: " (field item "pubDate")
                ++ optional_line "Link: " (field item "link")
                ++ categories_line (category_values item)
                ++ [""; description_line; ""])%list
           /\ title_line
              = match ET.find item "title" with
                | None => "Title: "
                | Some e =>
                    match ET.text e with
                    | None => "Title: None"
                    | Some s => "Title: " ++ s
                    end
                end
           /\ description_line
              = match ET.find item "description" with
                | None => "Description: "
                | Some e =>
                    match ET.text e with
                    | None => "Description: None"
                    | Some s => "Description: " ++ s
                    end
                end)
  /\ (forall label v,
         optional_line label v
         = match v with
           | None => []
           | Some s => if String.eqb s "" then [] else [label ++ s]
           end)
  /\ (forall values,
         categories_line values
         = match values with
           | [] => []
           | _ :: _ => ["Categories: " ++ String.concat ", " values]
           end).
Proof.
  apply (text_mode_blocks_render_field_values
           ET.fromstring Examples.with_author None Examples.author_channel
           (Examples.leaf "title" (Some "T")) (Examples.leaf "link" (Some "L"))).
  exists (Examples.node "rss" [Examples.author_channel]).
  split; [vm_compute; reflexivity|]. repeat split.
Defined.

(** The output on the feed with an author and two categories, line by
    line. *)
Example with_author_output :
  rss_parser ET.fromstring Examples.with_author None false
  = Py.Ok ["Feed: T"; "Link: L";
           "Title: N"; "Author: A"; "Categories: c1, c2"; ""; "Description: "; ""].
Proof. vm_compute. reflexivity. Qed.

(* ===================================================================== *)
(** * JSON mode                                                           *)
(* ===================================================================== *)

Lemma encode_optstr (level : nat) (v : Py.optstr) :
  Json.encode level (Py.of_optstr v) = json_value v.
Proof. destruct v; reflexivity. Qed.

(** The encoder on a dict or a list that is not empty. *)
Lemma encode_dict (level : nat) (kv : string * Py.object) (rest : list (string * Py.object)) :
  Json.encode level (Py.PyDict (kv :: rest))
  = "{" ++ Json.newline_indent (S level)
      ++ String.concat ("," ++ Json.newline_indent (S level))
           (map (fun kv => Json.encode_basestring (fst kv) ++ ": "
                             ++ Json.encode (S level) (snd kv)) (kv :: rest))
      ++ Json.newline_indent level ++ "}".
Proof. reflexivity. Qed.

Lemma encode_list (level : nat) (o : Py.object) (rest : list Py.object) :
  Json.encode level (Py.PyList (o :: rest))
  = "[" ++ Json.newline_indent (S level)
      ++ String.concat ("," ++ Json.newline_indent (S level))
           (map (Json.encode (S level)) (o :: rest))
      ++ Json.newline_indent level ++ "]".
Proof. reflexivity. Qed.

(** The encoder lays an item object out as [render_item] says. *)
Lemma encode_item_object (item : ET.Element) :
  Json.encode 2 (item_object item) = render_item item.
Proof.
  unfold item_object, render_item, member.
  rewrite encode_dict. cbn [map fst snd].
  rewrite !encode_optstr. reflexivity.
Qed.

Lemma encode_items (items : list ET.Element) :
  Json.encode 1 (Py.PyList (map item_object items)) = render_items items.
Proof.
  destruct items as [|item rest]; [reflexivity|].
  unfold render_items.
  change (map item_object (item :: rest))
    with (item_object item :: map item_object rest).
  rewrite encode_list.
  change (item_object item :: map item_object rest)
    with (map item_object (item :: rest)).
  rewrite map_map.
  rewrite (map_ext (fun x => Json.encode 2 (item_object x)) render_item encode_item_object).
  reflexivity.
Qed.

(** The encoder lays the document out as [render_feed] says. *)
Lemma dumps_feed_object (channel title link : ET.Element) (items : list ET.Element) :
  Json.dumps (feed_object channel title link items)
  = render_feed channel title link items.
Proof.
  unfold Json.dumps, feed_object, render_feed, member.
  rewrite encode_dict. cbn [map fst snd].
  rewrite !encode_optstr, encode_items. reflexivity.
Qed.

(** A character from space upwards that is neither the quotation mark nor
    the backslash is written as it is. *)
Lemma escape_char_literal (c : ascii) :
  32 <= nat_of_ascii c -> nat_of_ascii c <> 34 -> nat_of_ascii c <> 92 ->
  Json.escape_char c = String c "".
Proof.
  intros Hlo Hq Hb. unfold Json.escape_char.
  destruct (Nat.eqb_spec (nat_of_ascii c) 34) as [E|_]; [contradiction|].
  destruct (Nat.eqb_spec (nat_of_ascii c) 92) as [E|_]; [contradiction|].
  destruct (Nat.eqb_spec (nat_of_ascii c) 10) as [E|_]; [lia|].
  destruct (Nat.eqb_spec (nat_of_ascii c) 13) as [E|_]; [lia|].
  destruct (Nat.eqb_spec (nat_of_ascii c) 9) as [E|_]; [lia|].
  destruct (Nat.eqb_spec (nat_of_ascii c) 8) as [E|_]; [lia|].
  destruct (Nat.eqb_spec (nat_of_ascii c) 12) as [E|_]; [lia|].
  destruct (Nat.ltb_spec (nat_of_ascii c) 32) as [E|_]; [lia|].
  reflexivity.
Qed.

Lemma string_app_assoc (a b c : string) : (a ++ b) ++ c = a ++ b ++ c.
Proof.
  induction a as [|x a IH]; [reflexivity|].
  cbn [String.append]. rewrite IH. reflexivity.
Qed.

(** Escaping goes character by character. *)
Lemma escape_app (a b : string) :
  Json.escape (a ++ b) = Json.escape a ++ Json.escape b.
Proof.
  induction a as [|x a IH]; [reflexivity|].
  cbn [String.append Json.escape]. rewrite IH, string_app_assoc. reflexivity.
Qed.

(** A non-ASCII byte is copied, whatever stands around it. *)
Lemma escape_non_ascii (a b : string) (c : ascii) :
  128 <= nat_of_ascii c ->
  Json.escape (a ++ String c b) = Json.escape a ++ String c (Json.escape b).
Proof.
  intros Hc. rewrite escape_app. cbn [Json.escape].
  rewrite escape_char_literal by lia. reflexivity.
Qed.

(** Text made of non-ASCII bytes is written between the quotation marks
    unchanged. *)
Lemma encode_basestring_non_ascii (s : string) :
  Forall (fun c => 128 <= nat_of_ascii c) (list_ascii_of_string s) ->
  Json.encode_basestring s = String Json.quote (s ++ String Json.quote "").
Proof.
  intros Hall. unfold Json.encode_basestring. f_equal. f_equal.
  induction s as [|c rest IH]; [reflexivity|].
  cbn [list_ascii_of_string] in Hall. inversion Hall as [|c' l' Hc Hrest]; subst.
  cbn [Json.escape]. rewrite escape_char_literal by lia.
  rewrite IH by exact Hrest. reflexivity.
Qed.

(** In text mode the author of a kept item has a line of its own. *)
Lemma author_line_in_text_output
  (fromstring : string -> ET.ParseError + ET.Element)
  (xml : string) (limit : option Z) (channel title link : ET.Element)
  (item author : ET.Element) (s : string) :
  well_formed_feed fromstring xml channel title link ->
  In item (kept_items channel limit) ->
  ET.find item "author" = Some author -> ET.text author = Some s -> s <> "" ->
  exists out,
    rss_parser fromstring xml limit false = Py.Ok out
    /\ In (Py.fstring "Author: " (Some s)) out.
Proof.
  intros Hwf Hin Hfind Htext Hs.
  eexists. split; [apply (text_mode_output fromstring xml limit channel title link Hwf)|].
  apply in_or_app. right. apply in_flat_map. exists item. split; [exact Hin|].
  unfold item_block, item_block_with. cbn [app]. right. apply in_or_app. left.
  unfold optional_line, field. rewrite Hfind, Htext.
  unfold Py.truthy. apply String.eqb_neq in Hs. rewrite Hs. left. reflexivity.
Qed.

(** C5.  On a well-formed feed in JSON mode [rss_parser] returns one
    string, the JSON text of one object whose keys are title, link,
    description and items in this order; the items are the objects of the
    kept items in document order, each with the keys title, pubDate, link
    and description in this order and no key author, category or
    categories.  The text has one member per line with two more spaces
    of indentation per nesting level, and non-ASCII text is written as it
    is.  An item's non-empty author appears in text mode as its own
    line. *)
Theorem json_mode_document :
  forall (fromstring : string -> ET.ParseError + ET.Element)
         (xml : string) (limit : option Z) (channel title link : ET.Element),
    well_formed_feed fromstring xml channel title link ->
    (exists doc items,
        rss_parser fromstring xml limit true = Py.Ok [Json.dumps doc]
        /\ doc = feed_object channel title link (kept_items channel limit)
        /\ keys doc = ["title"; "link"; "description"; "items"]
        /\ Py.lookup (match doc with Py.PyDict d => d | _ => [] end) "items"
           = Some (Py.PyList items)
        /\ items = map item_object (kept_items channel limit)
        /\ Forall (fun o => keys o = ["title"; "pubDate"; "link"; "description"]) items
        /\ Forall (fun o => ~ In "author" (keys o) /\ ~ In "category" (keys o)
                            /\ ~ In "categories" (keys o)) items
        /\ Json.dumps doc = render_feed channel title link (kept_items channel limit))
    /\ (forall a b c, 128 <= nat_of_ascii c ->
                      Json.escape (a ++ String c b)
                      = Json.escape a ++ String c (Json.escape b))
    /\ (forall s, Forall (fun c => 128 <= nat_of_ascii c) (list_ascii_of_string s) ->
                  Json.encode_basestring s = String Json.quote (s ++ String Json.quote ""))
    /\ (forall item author s,
           In item (kept_items channel limit) ->
           ET.find item "author" = Some author -> ET.text author = Some s -> s <> "" ->
           exists out,
             rss_parser fromstring xml limit false = Py.Ok out
             /\ In (Py.fstring "Author: " (Some s)) out).
Proof.
  intros fromstring xml limit channel title link Hwf.
  split; [|split; [|split]].
  - exists (feed_object channel title link (kept_items channel limit)),
           (map item_object (kept_items channel limit)).
    split; [apply (json_mode_output fromstring xml limit channel title link Hwf)|].
    split; [reflexivity|]. split; [reflexivity|]. split; [reflexivity|].
    split; [reflexivity|]. split; [|split].
    + apply Forall_map. apply Forall_forall. intros item _. reflexivity.
    + apply Forall_map. apply Forall_forall. intros item _.
      cbn [item_object keys map fst In].
      repeat split; intros H; repeat (destruct H as [H|H]; [discriminate H|]); exact H.
    + apply dumps_feed_object.
  - exact escape_non_ascii.
  - exact encode_basestring_non_ascii.
  - intros item author s Hin Hfind Htext Hs.
    apply (author_line_in_text_output fromstring xml limit channel title link
             item author s Hwf Hin Hfind Htext Hs).
Qed.

Lemma json_mode_document_witness :
  (exists doc items,
      rss_parser ET.fromstring Examples.with_author None true = Py.Ok [Json.dumps doc]
      /\ doc = feed_object Examples.author_channel
                 (Examples.leaf "title" (Some "T")) (Examples.leaf "link" (Some "L"))
                 (kept_items Examples.author_channel None)
      /\ keys doc = ["title"; "link"; "description"; "items"]
      /\ Py.lookup (match doc with Py.PyDict d => d | _ => [] end) "items"
         = Some (Py.PyList items)
      /\ items = map item_object (kept_items Examples.author_channel None)
      /\ Forall (fun o => keys o = ["title"; "pubDate"; "link"; "description"]) items
      /\ Forall (fun o => ~ In "author" (keys o) /\ ~ In "category" (keys o)
                          /\ ~ In "categories" (keys o)) items
      /\ Json.dumps doc
         = render_feed Examples.author_channel
             (Examples.leaf "title" (Some "T")) (Examples.leaf "link" (Some "L"))
             (kept_items Examples.author_channel None))
  /\ (forall a b c, 128 <= nat_of_ascii c ->
                    Json.escape (a ++ String c b)
                    = Json.escape a ++ String c (Json.escape b))
  /\ (forall s, Forall (fun c => 128 <= nat_of_ascii c) (list_ascii_of_string s) ->
                Json.encode_basestring s = String Json.quote (s ++ String Json.quote ""))
  /\ (forall item author s,
         In item (kept_items Examples.author_channel None) ->
         ET.find item "author" = Some author -> ET.text author = Some s -> s <> "" ->
         exists out,
           rss_parser ET.fromstring Examples.with_author None false = Py.Ok out
           /\ In (Py.fstring "Author: " (Some s)) out).
Proof.
  apply (json_mode_document
           ET.fromstring Examples.with_author None Examples.author_channel
           (Examples.leaf "title" (Some "T")) (Examples.leaf "link" (Some "L"))).
  exists (Examples.node "rss" [Examples.author_channel]).
  split; [vm_compute; reflexivity|]. repeat split.
Defined.

(** The JSON text for the feed whose item has an author and two
    categories: neither shows. *)
Example with_author_json :
  rss_parser ET.fromstring Examples.with_author None true
  = Py.Ok [Examples.dq "{
  'title': 'T',
  'link': 'L',
  'description': '',
  'items': [
    {
      'title': 'N',
      'pubDate': '',
      'link': '',
      'description': ''
    }
  ]
}"].
Proof. vm_compute. reflexivity. Qed.

(* ===================================================================== *)
(** * How a call of rss_parser can end                                    *)
(* ===================================================================== *)


(* ===================================================================== *)
(** * The limit, on the output                                            *)
(* ===================================================================== *)

(** X2.  On a well-formed feed, a limit that is not negative keeps the
    first [limit] items, all of them when there are fewer: the text
    output is the channel lines followed by the blocks of these items,
    the JSON document holds the objects of these items, and their number
    is the smaller of the limit and the number of items. *)
Theorem nonnegative_limit_keeps_first_items :
  forall (fromstring : string -> ET.ParseError + ET.Element)
         (xml : string) (stop : Z) (channel title link : ET.Element),
    well_formed_feed fromstring xml channel title link ->
    (0 <= stop)%Z ->
    rss_parser fromstring xml (Some stop) false
    = Py.Ok (channel_lines channel title link
               ++ flat_map item_block
                    (firstn (Z.to_nat stop) (ET.findall channel "item")))%list
    /\ rss_parser fromstring xml (Some stop) true
       = Py.Ok [Json.dumps
                  (feed_object channel title link
                     (firstn (Z.to_nat stop) (ET.findall channel "item")))]
    /\ length (firstn (Z.to_nat stop) (ET.findall channel "item"))
       = Nat.min (Z.to_nat stop) (length (ET.findall channel "item")).
Proof.
  intros fromstring xml stop channel title link Hwf Hstop.
  assert (Hkept : kept_items channel (Some stop)
                  = firstn (Z.to_nat stop) (ET.findall channel "item"))
    by (apply slice_to_firstn; exact Hstop).
  split; [|split].
  - rewrite <- Hkept. apply (text_mode_output fromstring xml (Some stop) _ _ _ Hwf).
  - rewrite <- Hkept. apply (json_mode_output fromstring xml (Some stop) _ _ _ Hwf).
  - apply length_firstn.
Qed.

Lemma nonnegative_limit_witness :
  rss_parser ET.fromstring Examples.five_items (Some 2%Z) false
  = Py.Ok (channel_lines Examples.five_channel
             (Examples.leaf "title" (Some "T")) (Examples.leaf "link" (Some "L"))
             ++ flat_map item_block
                  (firstn (Z.to_nat 2) (ET.findall Examples.five_channel "item")))%list
  /\ rss_parser ET.fromstring Examples.five_items (Some 2%Z) true
     = Py.Ok [Json.dumps
                (feed_object Examples.five_channel
                   (Examples.leaf "title" (Some "T")) (Examples.leaf "link" (Some "L"))
                   (firstn (Z.to_nat 2) (ET.findall Examples.five_channel "item")))]
  /\ length (firstn (Z.to_nat 2) (ET.findall Examples.five_channel "item"))
     = Nat.min (Z.to_nat 2) (length (ET.findall Examples.five_channel "item")).
Proof.
  apply (nonnegative_limit_keeps_first_items
           ET.fromstring Examples.five_items 2%Z Examples.five_channel
           (Examples.leaf "title" (Some "T")) (Examples.leaf "link" (Some "L"))).
  - exists (Examples.node "rss" [Examples.five_channel]).
    split; [vm_compute; reflexivity|]. repeat split.
  - lia.
Defined.

(** X3.  On a well-formed feed the text output under any limit, negative
    ones included, is a prefix of the text output without a limit: what
    is missing is the blocks of the items the limit drops, which are the
    last items of the channel. *)
Theorem limited_text_output_is_prefix :
  forall (fromstring : string -> ET.ParseError + ET.Element)
         (xml : string) (limit : option Z) (channel title link : ET.Element),
    well_formed_feed fromstring xml channel title link ->
    exists limited dropped,
      rss_parser fromstring xml limit false = Py.Ok limited
      /\ rss_parser fromstring xml None false
         = Py.Ok (limited ++ flat_map item_block dropped)%list
      /\ ET.findall channel "item" = (kept_items channel limit ++ dropped)%list.
Proof.
  intros fromstring xml limit channel title link Hwf.
  assert (Hn : exists n, kept_items channel limit = firstn n (ET.findall channel "item")).
  { destruct limit as [stop|]; cbn [kept_items].
    - apply slice_to_is_prefix.
    - exists (length (ET.findall channel "item")). symmetry. apply firstn_all. }
  destruct Hn as [n Hn].
  exists (channel_lines channel title link
            ++ flat_map item_block (kept_items channel limit))%list,
         (skipn n (ET.findall channel "item")).
  split; [apply (text_mode_output fromstring xml limit _ _ _ Hwf)|].
  split.
  - rewrite (text_mode_output fromstring xml None _ _ _ Hwf). cbn [kept_items].
    rewrite <- app_assoc, <- flat_map_app, Hn, firstn_skipn. reflexivity.
  - rewrite Hn, firstn_skipn. reflexivity.
Qed.

Lemma limited_text_output_witness :
  exists limited dropped,
    rss_parser ET.fromstring Examples.five_items (Some (-2)%Z) false = Py.Ok limited
    /\ rss_parser ET.fromstring Examples.five_items None false
       = Py.Ok (limited ++ flat_map item_block dropped)%list
    /\ ET.findall Examples.five_channel "item"
       = (kept_items Examples.five_channel (Some (-2)%Z) ++ dropped)%list.
Proof.
  apply (limited_text_output_is_prefix
           ET.fromstring Examples.five_items (Some (-2)%Z) Examples.five_channel
           (Examples.leaf "title" (Some "T")) (Examples.leaf "link" (Some "L"))).
  exists (Examples.node "rss" [Examples.five_channel]).
  split; [vm_compute; reflexivity|]. repeat split.
Defined.

(* ===================================================================== *)
(** * The size of the text output                                         *)
(* ===================================================================== *)

Lemma length_optional_line (label : string) (v : Py.optstr) :
  length (optional_line label v) <= 1.
Proof. unfold optional_line. destruct (Py.truthy v); cbn; lia. Qed.

Lemma length_present_line (label : string) (found : option ET.Element) :
  length (present_line label found) <= 1.
Proof.
  unfold present_line. destruct found; [apply length_optional_line|cbn; lia].
Qed.

Lemma length_categories_line (values : list string) :
  length (categories_line values) <= 1.
Proof. unfold categories_line. destruct values; cbn; lia. Qed.

Lemma length_item_block (item : ET.Element) :
  4 <= length (item_block item) <= 8.
Proof.
  unfold item_block, item_block_with. rewrite !length_app. cbn [length].
  pose proof (length_optional_line "Author: " (field item "author")).
  pose proof (length_optional_line "Published: " (field item "pubDate")).
  pose proof (length_optional_line "Link: " (field item "link")).
  pose proof (length_categories_line (category_values item)).
  lia.
Qed.

Lemma length_channel_lines (channel title link : ET.Element) :
  2 <= length (channel_lines channel title link) <= 8.
Proof.
  unfold channel_lines, channel_lines_with. rewrite !length_app. cbn [length].
  pose proof (length_categories_line (category_values channel)).
  pose proof (length_present_line "Last Build Date: " (ET.find channel "lastBuildDate")).
  pose proof (length_present_line "Publish Date: " (ET.find channel "pubDate")).
  pose proof (length_present_line "Language: " (ET.find channel "language")).
  pose proof (length_present_line "Editor: " (ET.find channel "managingEditor")).
  pose proof (length_present_line "Description: " (ET.find channel "description")).
  lia.
Qed.

Lemma length_item_blocks (items : list ET.Element) :
  4 * length items <= length (flat_map item_block items) <= 8 * length items.
Proof.
  induction items as [|item rest IH]; cbn [flat_map length]; [lia|].
  rewrite length_app. pose proof (length_item_block item). lia.
Qed.

(** X4.  On a well-formed feed the text output has between two and eight
    lines for the channel and between four and eight lines for every
    kept item; the JSON output is one string whatever the feed. *)
Theorem text_output_size :
  forall (fromstring : string -> ET.ParseError + ET.Element)
         (xml : string) (limit : option Z) (channel title link : ET.Element),
    well_formed_feed fromstring xml channel title link ->
    exists lines document,
      rss_parser fromstring xml limit false = Py.Ok lines
      /\ rss_parser fromstring xml limit true = Py.Ok [document]
      /\ 2 + 4 * length (kept_items channel limit) <= length lines
      /\ length lines <= 8 + 8 * length (kept_items channel limit)
      /\ length (kept_items channel limit) <= length (ET.findall channel "item").
Proof.
  intros fromstring xml limit channel title link Hwf.
  eexists. eexists.
  split; [apply (text_mode_output fromstring xml limit _ _ _ Hwf)|].
  split; [apply (json_mode_output fromstring xml limit _ _ _ Hwf)|].
  rewrite length_app.
  pose proof (length_channel_lines channel title link).
  pose proof (length_item_blocks (kept_items channel limit)).
  split; [lia|]. split; [lia|].
  destruct limit as [stop|]; cbn [kept_items]; [|lia].
  destruct (slice_to_is_prefix (ET.findall channel "item") stop) as [n ->].
  rewrite length_firstn. lia.
Qed.

Lemma text_output_size_witness :
  exists lines document,
    rss_parser ET.fromstring Examples.with_author (Some 7%Z) false = Py.Ok lines
    /\ rss_parser ET.fromstring Examples.with_author (Some 7%Z) true = Py.Ok [document]
    /\ 2 + 4 * length (kept_items Examples.author_channel (Some 7%Z)) <= length lines
    /\ length lines <= 8 + 8 * length (kept_items Examples.author_channel (Some 7%Z))
    /\ length (kept_items Examples.author_channel (Some 7%Z))
       <= length (ET.findall Examples.author_channel "item").
Proof.
  apply (text_output_size
           ET.fromstring Examples.with_author (Some 7%Z) Examples.author_channel
           (Examples.leaf "title" (Some "T")) (Examples.leaf "link" (Some "L"))).
  exists (Examples.node "rss" [Examples.author_channel]).
  split; [vm_compute; reflexivity|]. repeat split.
Defined.

(* ===================================================================== *)
(** * The children that are never read                                    *)
(* ===================================================================== *)

Section Tagged.

Variable tags : list string.

Lemma has_tag_in_member (e : ET.Element) (t : string) :
  In t tags -> String.eqb (ET.tag e) t = true -> has_tag_in tags e = true.
Proof.
  intros Hin Heq. unfold has_tag_in. apply existsb_exists.
  exists t. split; assumption.
Qed.

Lemma find_tagged (l : list ET.Element) (t : string) :
  In t tags ->
  List.find (fun c => String.eqb (ET.tag c) t) (filter (has_tag_in tags) l)
  = List.find (fun c => String.eqb (ET.tag c) t) l.
Proof.
  intros Hin. induction l as [|e rest IH]; [reflexivity|].
  cbn [filter List.find].
  destruct (String.eqb (ET.tag e) t) eqn:He.
  - rewrite (has_tag_in_member e t Hin He). cbn [List.find]. rewrite He. reflexivity.
  - destruct (has_tag_in tags e); [cbn [List.find]; rewrite He|]; exact IH.
Qed.

Lemma filter_tagged (l : list ET.Element) (t : string) :
  In t tags ->
  filter (fun c => String.eqb (ET.tag c) t) (filter (has_tag_in tags) l)
  = filter (fun c => String.eqb (ET.tag c) t) l.
Proof.
  intros Hin. induction l as [|e rest IH]; [reflexivity|].
  cbn [filter].
  destruct (String.eqb (ET.tag e) t) eqn:He.
  - rewrite (has_tag_in_member e t Hin He). cbn [filter]. rewrite He, IH. reflexivity.
  - destruct (has_tag_in tags e); [cbn [filter]; rewrite He|]; exact IH.
Qed.

(** Two elements with the same tagged children answer [find] and
    [findall] alike for every one of the tags. *)
Lemma same_tagged_children (e1 e2 : ET.Element) (t : string) :
  children_tagged tags e1 = children_tagged tags e2 ->
  In t tags ->
  ET.find e1 t = ET.find e2 t /\ ET.findall e1 t = ET.findall e2 t.
Proof.
  intros Hsame Hin. unfold ET.find, ET.findall, children_tagged in *.
  rewrite <- (find_tagged (ET.children e1) t Hin),
          <- (find_tagged (ET.children e2) t Hin),
          <- (filter_tagged (ET.children e1) t Hin),
          <- (filter_tagged (ET.children e2) t Hin), Hsame.
  split; reflexivity.
Qed.

End Tagged.

Ltac tag_listed := cbn; repeat first [left; reflexivity | right].

(** X5.  Whatever the limit and the mode, the result of [rss_parser]
    depends on the channel only through its children tagged title, link,
    category, item, lastBuildDate, pubDate, language, managingEditor or
    description: two documents whose channels have the same such
    children, in the same order, give the same result, whatever else the
    channels hold. *)
Theorem other_channel_children_are_ignored :
  forall (fromstring : string -> ET.ParseError + ET.Element)
         (xml1 xml2 : string) (limit : option Z) (json : bool)
         (root1 root2 channel1 channel2 : ET.Element),
    fromstring xml1 = inr root1 -> fromstring xml2 = inr root2 ->
    ET.find root1 "channel" = Some channel1 ->
    ET.find root2 "channel" = Some channel2 ->
    children_tagged channel_tags channel1 = children_tagged channel_tags channel2 ->
    rss_parser fromstring xml1 limit json = rss_parser fromstring xml2 limit json.
Proof.
  intros fromstring xml1 xml2 limit json root1 root2 channel1 channel2
         Hroot1 Hroot2 Hch1 Hch2 Hsame.
  pose proof (fun t H => same_tagged_children channel_tags channel1 channel2 t Hsame H)
    as Hread.
  unfold rss_parser, try_block, call_fromstring.
  rewrite Hroot1, Hroot2. cbn [Py.bind]. rewrite Hch1, Hch2.
  cbn [Py.find Py.findall].
  rewrite (proj1 (Hread "title" ltac:(tag_listed))).
  rewrite (proj1 (Hread "link" ltac:(tag_listed))).
  rewrite (proj2 (Hread "category" ltac:(tag_listed))).
  rewrite (proj2 (Hread "item" ltac:(tag_listed))).
  rewrite (proj1 (Hread "lastBuildDate" ltac:(tag_listed))).
  rewrite (proj1 (Hread "pubDate" ltac:(tag_listed))).
  rewrite (proj1 (Hread "language" ltac:(tag_listed))).
  rewrite (proj1 (Hread "managingEditor" ltac:(tag_listed))).
  rewrite (proj1 (Hread "description" ltac:(tag_listed))).
  reflexivity.
Qed.

Lemma other_channel_children_witness :
  rss_parser ET.fromstring Examples.minimal (Some 1%Z) false
  = rss_parser ET.fromstring Examples.minimal_with_stranger (Some 1%Z) false.
Proof.
  apply (other_channel_children_are_ignored
           ET.fromstring Examples.minimal Examples.minimal_with_stranger (Some 1%Z) false
           Examples.minimal_root
           (Examples.node "rss"
              [Examples.node "channel"
                 [Examples.minimal_title; Examples.leaf "generator" (Some "G");
                  Examples.minimal_link; Examples.leaf "description" (Some "D")]])
           Examples.minimal_channel
           (Examples.node "channel"
              [Examples.minimal_title; Examples.leaf "generator" (Some "G");
               Examples.minimal_link; Examples.leaf "description" (Some "D")]));
    vm_compute; reflexivity.
Defined.

(** X6.  In JSON mode the result depends on the channel only through its
    children tagged title, link, item or description: the categories,
    the dates, the language and the editor of the channel change nothing
    in the JSON document. *)
Theorem json_mode_ignores_text_only_channel_children :
  forall (fromstring : string -> ET.ParseError + ET.Element)
         (xml1 xml2 : string) (limit : option Z)
         (root1 root2 channel1 channel2 : ET.Element),
    fromstring xml1 = inr root1 -> fromstring xml2 = inr root2 ->
    ET.find root1 "channel" = Some channel1 ->
    ET.find root2 "channel" = Some channel2 ->
    children_tagged channel_tags_json channel1
    = children_tagged channel_tags_json channel2 ->
    rss_parser fromstring xml1 limit true = rss_parser fromstring xml2 limit true.
Proof.
  intros fromstring xml1 xml2 limit root1 root2 channel1 channel2
         Hroot1 Hroot2 Hch1 Hch2 Hsame.
  pose proof (fun t H => same_tagged_children channel_tags_json channel1 channel2 t Hsame H)
    as Hread.
  unfold rss_parser, try_block, call_fromstring.
  rewrite Hroot1, Hroot2. cbn [Py.bind]. rewrite Hch1, Hch2.
  cbn [Py.find Py.findall Py.bind].
  rewrite (proj1 (Hread "title" ltac:(tag_listed))).
  rewrite (proj1 (Hread "link" ltac:(tag_listed))).
  destruct (ET.find channel2 "title") as [title|]; [|reflexivity].
  destruct (ET.find channel2 "link") as [link|]; [|reflexivity].
  cbn [Py.text Py.bind].
  rewrite (proj2 (Hread "item" ltac:(tag_listed))).
  rewrite (proj1 (Hread "description" ltac:(tag_listed))).
  reflexivity.
Qed.

Lemma json_mode_ignores_witness :
  rss_parser ET.fromstring Examples.minimal None true
  = rss_parser ET.fromstring Examples.blank_category_with_description None true.
Proof.
  apply (json_mode_ignores_text_only_channel_children
           ET.fromstring Examples.minimal Examples.blank_category_with_description None
           Examples.minimal_root
           (Examples.node "rss"
              [Examples.node "channel"
                 [Examples.minimal_title; Examples.leaf "category" (Some "c");
                  Examples.leaf "language" (Some "en");
                  Examples.minimal_link; Examples.leaf "description" (Some "D")]])
           Examples.minimal_channel
           (Examples.node "channel"
              [Examples.minimal_title; Examples.leaf "category" (Some "c");
               Examples.leaf "language" (Some "en");
               Examples.minimal_link; Examples.leaf "description" (Some "D")]));
    vm_compute; reflexivity.
Defined.

(** The children read in JSON mode are among those read in text mode. *)
Lemma filter_subset_items (item : ET.Element) :
  filter (has_tag_in item_tags_json) (children_tagged item_tags item)
  = children_tagged item_tags_json item.
Proof.
  unfold children_tagged. induction (ET.children item) as [|e rest IH]; [reflexivity|].
  cbn [filter].
  destruct (has_tag_in item_tags e) eqn:He; cbn [filter].
  - rewrite IH. reflexivity.
  - rewrite IH. destruct (has_tag_in item_tags_json e) eqn:Hj; [|reflexivity].
    exfalso. unfold has_tag_in, item_tags, item_tags_json in He, Hj.
    cbn [existsb] in He, Hj.
    repeat (apply orb_false_elim in He; destruct He as [? He]).
    repeat (apply orb_prop in Hj; destruct Hj as [Hj|Hj]); congruence.
Qed.

(** The same for the children of an item. *)
Lemma item_block_same_children (item1 item2 : ET.Element) :
  children_tagged item_tags item1 = children_tagged item_tags item2 ->
  item_block item1 = item_block item2.
Proof.
  intros Hsame.
  pose proof (fun t H => same_tagged_children item_tags item1 item2 t Hsame H) as Hread.
  unfold item_block, item_block_with, field, category_values, category_texts.
  rewrite (proj1 (Hread "title" ltac:(tag_listed))).
  rewrite (proj1 (Hread "author" ltac:(tag_listed))).
  rewrite (proj1 (Hread "pubDate" ltac:(tag_listed))).
  rewrite (proj1 (Hread "link" ltac:(tag_listed))).
  rewrite (proj2 (Hread "category" ltac:(tag_listed))).
  rewrite (proj1 (Hread "description" ltac:(tag_listed))).
  reflexivity.
Qed.

Lemma item_object_same_children (item1 item2 : ET.Element) :
  children_tagged item_tags_json item1 = children_tagged item_tags_json item2 ->
  item_object item1 = item_object item2.
Proof.
  intros Hsame.
  pose proof (fun t H => same_tagged_children item_tags_json item1 item2 t Hsame H)
    as Hread.
  unfold item_object, field.
  rewrite (proj1 (Hread "title" ltac:(tag_listed))).
  rewrite (proj1 (Hread "pubDate" ltac:(tag_listed))).
  rewrite (proj1 (Hread "link" ltac:(tag_listed))).
  rewrite (proj1 (Hread "description" ltac:(tag_listed))).
  reflexivity.
Qed.

Section Pointwise.

Context {A B : Type} (R : A -> A -> Prop).

Lemma slice_to_pointwise (l1 l2 : list A) (stop : Z) :
  Forall2 R l1 l2 -> Forall2 R (Py.slice_to l1 stop) (Py.slice_to l2 stop).
Proof.
  intros H. unfold Py.slice_to. rewrite <- (Forall2_length H).
  generalize (Z.to_nat
                (if (stop <? 0)%Z
                 then Z.max (stop + Z.of_nat (length l1)) 0
                 else Z.min stop (Z.of_nat (length l1)))).
  intros n. revert n. induction H as [|a b l1 l2 Hab H IH]; intros [|n]; cbn [firstn];
    constructor; auto.
Qed.

Lemma flat_map_pointwise (f : A -> list B) (l1 l2 : list A) :
  (forall a b, R a b -> f a = f b) ->
  Forall2 R l1 l2 -> flat_map f l1 = flat_map f l2.
Proof.
  intros Hf H. induction H as [|a b l1 l2 Hab H IH]; [reflexivity|].
  cbn [flat_map]. rewrite (Hf a b Hab), IH. reflexivity.
Qed.

Lemma map_pointwise (f : A -> B) (l1 l2 : list A) :
  (forall a b, R a b -> f a = f b) ->
  Forall2 R l1 l2 -> map f l1 = map f l2.
Proof.
  intros Hf H. induction H as [|a b l1 l2 Hab H IH]; [reflexivity|].
  cbn [map]. rewrite (Hf a b Hab), IH. reflexivity.
Qed.

End Pointwise.

Lemma kept_items_pointwise (R : ET.Element -> ET.Element -> Prop)
  (channel1 channel2 : ET.Element) (limit : option Z) :
  Forall2 R (ET.findall channel1 "item") (ET.findall channel2 "item") ->
  Forall2 R (kept_items channel1 limit) (kept_items channel2 limit).
Proof.
  intros H. destruct limit as [stop|]; cbn [kept_items]; [|exact H].
  apply slice_to_pointwise. exact H.
Qed.

(** X7.  The result of [rss_parser] depends on an item only through its
    children tagged title, author, pubDate, link, category or
    description.  Two documents whose channels agree on their children
    other than items, and whose items agree one by one on these children,
    give the same result, whatever the limit and the mode and whatever
    else the items hold. *)
Theorem other_item_children_are_ignored :
  forall (fromstring : string -> ET.ParseError + ET.Element)
         (xml1 xml2 : string) (limit : option Z) (json : bool)
         (root1 root2 channel1 channel2 : ET.Element),
    fromstring xml1 = inr root1 -> fromstring xml2 = inr root2 ->
    ET.find root1 "channel" = Some channel1 ->
    ET.find root2 "channel" = Some channel2 ->
    children_tagged channel_scalar_tags channel1
    = children_tagged channel_scalar_tags channel2 ->
    Forall2 (fun item1 item2 =>
               children_tagged item_tags item1 = children_tagged item_tags item2)
      (ET.findall channel1 "item") (ET.findall channel2 "item") ->
    rss_parser fromstring xml1 limit json = rss_parser fromstring xml2 limit json.
Proof.
  intros fromstring xml1 xml2 limit json root1 root2 channel1 channel2
         Hroot1 Hroot2 Hch1 Hch2 Hsame Hitems.
  pose proof (fun t H => same_tagged_children channel_scalar_tags channel1 channel2 t Hsame H)
    as Hread.
  pose proof (proj1 (Hread "title" ltac:(tag_listed))) as Ht.
  pose proof (proj1 (Hread "link" ltac:(tag_listed))) as Hl.
  destruct (ET.find channel2 "title") as [title|] eqn:Ht2.
  2:{ rewrite (rss_parser_no_title fromstring xml1 limit json root1 channel1 Hroot1 Hch1 Ht).
      rewrite (rss_parser_no_title fromstring xml2 limit json root2 channel2 Hroot2 Hch2 Ht2).
      reflexivity. }
  destruct (ET.find channel2 "link") as [link|] eqn:Hl2.
  2:{ rewrite (rss_parser_no_link fromstring xml1 limit json root1 channel1 title
                 Hroot1 Hch1 Ht Hl).
      rewrite (rss_parser_no_link fromstring xml2 limit json root2 channel2 title
                 Hroot2 Hch2 Ht2 Hl2).
      reflexivity. }
  assert (Hwf1 : well_formed_feed fromstring xml1 channel1 title link)
    by (exists root1; auto).
  assert (Hwf2 : well_formed_feed fromstring xml2 channel2 title link)
    by (exists root2; auto).
  pose proof (kept_items_pointwise _ channel1 channel2 limit Hitems) as Hkept.
  destruct json.
  - rewrite (json_mode_output fromstring xml1 limit _ _ _ Hwf1),
            (json_mode_output fromstring xml2 limit _ _ _ Hwf2).
    unfold feed_object, field.
    rewrite (proj1 (Hread "description" ltac:(tag_listed))).
    rewrite (map_pointwise _ item_object _ _
               (fun a b Hab =>
                  item_object_same_children a b
                    (eq_trans (eq_sym (filter_subset_items a))
                       (eq_trans (f_equal (filter (has_tag_in item_tags_json)) Hab)
                          (filter_subset_items b))))
               Hkept).
    reflexivity.
  - rewrite (text_mode_output fromstring xml1 limit _ _ _ Hwf1),
            (text_mode_output fromstring xml2 limit _ _ _ Hwf2).
    unfold channel_lines, channel_lines_with, category_values, category_texts.
    rewrite (proj2 (Hread "category" ltac:(tag_listed))).
    rewrite (proj1 (Hread "lastBuildDate" ltac:(tag_listed))).
    rewrite (proj1 (Hread "pubDate" ltac:(tag_listed))).
    rewrite (proj1 (Hread "language" ltac:(tag_listed))).
    rewrite (proj1 (Hread "managingEditor" ltac:(tag_listed))).
    rewrite (proj1 (Hread "description" ltac:(tag_listed))).
    rewrite (flat_map_pointwise _ item_block _ _ item_block_same_children Hkept).
    reflexivity.
Qed.

Lemma other_item_children_witness :
  rss_parser ET.fromstring Examples.one_item None false
  = rss_parser ET.fromstring Examples.one_item_with_guid None false.
Proof.
  apply (other_item_children_are_ignored
           ET.fromstring Examples.one_item Examples.one_item_with_guid None false
           (Examples.node "rss" [Examples.one_item_channel])
           (Examples.node "rss" [Examples.one_item_with_guid_channel])
           Examples.one_item_channel Examples.one_item_with_guid_channel);
    try (vm_compute; reflexivity).
  repeat constructor.
Defined.

(** X8.  In JSON mode the result depends on an item only through its
    children tagged title, pubDate, link or description, and on the
    channel, besides its items, only through its title, link and
    description: the authors and the categories of the items change
    nothing in the JSON document. *)
Theorem json_mode_ignores_item_author_and_categories :
  forall (fromstring : string -> ET.ParseError + ET.Element)
         (xml1 xml2 : string) (limit : option Z)
         (root1 root2 channel1 channel2 : ET.Element),
    fromstring xml1 = inr root1 -> fromstring xml2 = inr root2 ->
    ET.find root1 "channel" = Some channel1 ->
    ET.find root2 "channel" = Some channel2 ->
    children_tagged channel_scalar_tags_json channel1
    = children_tagged channel_scalar_tags_json channel2 ->
    Forall2 (fun item1 item2 =>
               children_tagged item_tags_json item1 = children_tagged item_tags_json item2)
      (ET.findall channel1 "item") (ET.findall channel2 "item") ->
    rss_parser fromstring xml1 limit true = rss_parser fromstring xml2 limit true.
Proof.
  intros fromstring xml1 xml2 limit root1 root2 channel1 channel2
         Hroot1 Hroot2 Hch1 Hch2 Hsame Hitems.
  pose proof (fun t H =>
                same_tagged_children channel_scalar_tags_json channel1 channel2 t Hsame H)
    as Hread.
  pose proof (proj1 (Hread "title" ltac:(tag_listed))) as Ht.
  pose proof (proj1 (Hread "link" ltac:(tag_listed))) as Hl.
  destruct (ET.find channel2 "title") as [title|] eqn:Ht2.
  2:{ rewrite (rss_parser_no_title fromstring xml1 limit true root1 channel1 Hroot1 Hch1 Ht).
      rewrite (rss_parser_no_title fromstring xml2 limit true root2 channel2 Hroot2 Hch2 Ht2).
      reflexivity. }
  destruct (ET.find channel2 "link") as [link|] eqn:Hl2.
  2:{ rewrite (rss_parser_no_link fromstring xml1 limit true root1 channel1 title
                 Hroot1 Hch1 Ht Hl).
      rewrite (rss_parser_no_link fromstring xml2 limit true root2 channel2 title
                 Hroot2 Hch2 Ht2 Hl2).
      reflexivity. }
  assert (Hwf1 : well_formed_feed fromstring xml1 channel1 title link)
    by (exists root1; auto).
  assert (Hwf2 : well_formed_feed fromstring xml2 channel2 title link)
    by (exists root2; auto).
  pose proof (kept_items_pointwise _ channel1 channel2 limit Hitems) as Hkept.
  rewrite (json_mode_output fromstring xml1 limit _ _ _ Hwf1),
          (json_mode_output fromstring xml2 limit _ _ _ Hwf2).
  unfold feed_object, field.
  rewrite (proj1 (Hread "description" ltac:(tag_listed))).
  rewrite (map_pointwise _ item_object _ _ item_object_same_children Hkept).
  reflexivity.
Qed.

Lemma json_mode_ignores_item_author_witness :
  rss_parser ET.fromstring Examples.with_author None true
  = rss_parser ET.fromstring Examples.one_item None true.
Proof.
  apply (json_mode_ignores_item_author_and_categories
           ET.fromstring Examples.with_author Examples.one_item None
           (Examples.node "rss" [Examples.author_channel])
           (Examples.node "rss" [Examples.one_item_channel])
           Examples.author_channel Examples.one_item_channel);
    try (vm_compute; reflexivity).
  repeat constructor.
Defined.

(* ===================================================================== *)
(** * main                                                                *)
(* ===================================================================== *)

Section MainProperties.

Variable fromstring : string -> ET.ParseError + ET.Element.

(** The argument of [print] when the parser returns its lines: the lines
    joined by line breaks. *)
Lemma main_try_joins (xml : string) (args : Cli.Namespace) (lines : list string) :
  rss_parser fromstring xml (Cli.limit args) (Cli.json args) = Py.Ok lines ->
  main_try fromstring xml args = Py.Ok (String.concat Cli.newline lines).
Proof.
  intros H. unfold main_try. rewrite H. cbn [Py.bind]. apply join_strings.
Qed.

(** When the parser raises, [print] is not reached. *)
Lemma main_try_raises (xml : string) (args : Cli.Namespace) (e : Py.exn) :
  rss_parser fromstring xml (Cli.limit args) (Cli.json args) = Py.Raise e ->
  main_try fromstring xml args = Py.Raise e.
Proof. intros H. unfold main_try. rewrite H. reflexivity. Qed.

(** On a well-formed feed the argument of [print] is [printed_text]. *)
Lemma main_try_well_formed (xml : string) (args : Cli.Namespace)
  (channel title link : ET.Element) :
  well_formed_feed fromstring xml channel title link ->
  main_try fromstring xml args = Py.Ok (printed_text args channel title link).
Proof.
  intros Hwf. unfold printed_text. destruct (Cli.json args) eqn:Hjson.
  - rewrite (main_try_joins xml args
               [Json.dumps (feed_object channel title link
                              (kept_items channel (Cli.limit args)))]);
      [reflexivity|].
    rewrite Hjson. apply (json_mode_output fromstring xml _ _ _ _ Hwf).
  - apply main_try_joins.
    rewrite Hjson. apply (text_mode_output fromstring xml _ _ _ _ Hwf).
Qed.

End MainProperties.

(** X9.  When the arguments parse and the fetch returns a well-formed
    feed, [main] calls [print] once, on the text of the feed: in text
    mode the channel lines and the blocks of the kept items, one per
    line, in JSON mode the JSON document.  If the write succeeds, this
    text and a line break are appended to standard output and [main]
    returns 0.  If the write fails, [main] raises the
    [UnhandledException] around the exception of the write, and standard
    output holds what got through. *)
Theorem main_prints_the_feed :
  forall (fromstring : string -> ET.ParseError + ET.Element) (E F : Type)
         (parse_args : option (list string) -> (string * E) + Cli.Namespace)
         (requests_get_text : option string -> E + string)
         (print_fails : string -> string -> option (string * F))
         (argv : option (list string)) (stdout : string)
         (args : Cli.Namespace) (xml : string) (channel title link : ET.Element),
    parse_args argv = inr args ->
    requests_get_text (Cli.source args) = inr xml ->
    well_formed_feed fromstring xml channel title link ->
    main fromstring E F parse_args requests_get_text print_fails argv stdout
    = match print_fails stdout (printed_text args channel title link) with
      | None =>
          (stdout ++ printed_text args channel title link ++ Cli.newline,
           Cli.Return 0%Z)
      | Some (written, e) => (stdout ++ written, Cli.RaiseFromPrint e)
      end.
Proof.
  intros fromstring E F parse_args requests_get_text print_fails argv stdout args xml
         channel title link Hargs Hget Hwf.
  unfold main. rewrite Hargs, Hget.
  rewrite (main_try_well_formed fromstring xml args channel title link Hwf).
  unfold print.
  destruct (print_fails stdout (printed_text args channel title link))
    as [[written e]|]; reflexivity.
Qed.

Lemma main_prints_the_feed_witness :
  main ET.fromstring unit unit
    (Examples.args_of (Cli.mkNamespace (Some "http://feed") false None))
    (Examples.fetch_of Examples.minimal) Examples.print_succeeds None "$ "
  = match Examples.print_succeeds "$ "
            (printed_text (Cli.mkNamespace (Some "http://feed") false None)
               Examples.minimal_channel Examples.minimal_title Examples.minimal_link)
    with
    | None =>
        ("$ " ++ printed_text (Cli.mkNamespace (Some "http://feed") false None)
                   Examples.minimal_channel Examples.minimal_title Examples.minimal_link
              ++ Cli.newline,
         Cli.Return 0%Z)
    | Some (written, e) => ("$ " ++ written, Cli.RaiseFromPrint e)
    end.
Proof.
  apply (main_prints_the_feed
           ET.fromstring unit unit
           (Examples.args_of (Cli.mkNamespace (Some "http://feed") false None))
           (Examples.fetch_of Examples.minimal) Examples.print_succeeds None "$ "
           (Cli.mkNamespace (Some "http://feed") false None) Examples.minimal
           Examples.minimal_channel Examples.minimal_title Examples.minimal_link).
  - reflexivity.
  - reflexivity.
  - exists Examples.minimal_root. split; [vm_compute; reflexivity|]. repeat split.
Defined.

(** The same run, character by character, and the run on a standard
    output that refuses the write. *)
Example main_minimal_output :
  main ET.fromstring unit unit
    (Examples.args_of (Cli.mkNamespace (Some "http://feed") false None))
    (Examples.fetch_of Examples.minimal) Examples.print_succeeds None ""
  = ("Feed: T
Link: L
Description: D
", Cli.Return 0%Z)
  /\ main ET.fromstring unit unit
       (Examples.args_of (Cli.mkNamespace (Some "http://feed") false None))
       (Examples.fetch_of Examples.minimal) Examples.print_raises None ""
     = ("", Cli.RaiseFromPrint tt).
Proof. split; vm_compute; reflexivity. Qed.

(** X10.  When the arguments parse and the fetch returns a document on
    which [rss_parser] raises, [main] prints nothing and raises an
    [UnhandledException] that wraps that exception and has its message.
    For a document that does not parse this is the second wrapping: the
    [ParseError] sits inside two [UnhandledException]s, and the message
    is still the XML library's. *)
Theorem main_wraps_every_parser_failure :
  forall (fromstring : string -> ET.ParseError + ET.Element) (E F : Type)
         (parse_args : option (list string) -> (string * E) + Cli.Namespace)
         (requests_get_text : option string -> E + string)
         (print_fails : string -> string -> option (string * F))
         (argv : option (list string)) (stdout : string)
         (args : Cli.Namespace) (xml : string) (e : Py.exn),
    parse_args argv = inr args ->
    requests_get_text (Cli.source args) = inr xml ->
    rss_parser fromstring xml (Cli.limit args) (Cli.json args) = Py.Raise e ->
    main fromstring E F parse_args requests_get_text print_fails argv stdout
    = (stdout, Cli.Raise (Py.UnhandledException e))
    /\ Py.str (Py.UnhandledException e) = Py.str e
    /\ (forall pe, fromstring xml = inl pe ->
                   e = Py.UnhandledException (Py.ParseError pe)
                   /\ Py.str (Py.UnhandledException e) = ET.ParseError_str pe).
Proof.
  intros fromstring E F parse_args requests_get_text print_fails argv stdout args xml e
         Hargs Hget Hraise.
  split; [|split].
  - unfold main. rewrite Hargs, Hget.
    rewrite (main_try_raises fromstring xml args e Hraise). reflexivity.
  - reflexivity.
  - intros pe Hpe.
    rewrite (rss_parser_wraps fromstring xml _ _ pe Hpe) in Hraise.
    injection Hraise as <-. split; reflexivity.
Qed.

Lemma main_wraps_every_parser_failure_witness :
  main ET.fromstring unit unit
    (Examples.args_of (Cli.mkNamespace (Some "http://feed") true (Some 3%Z)))
    (Examples.fetch_of Examples.unclosed) Examples.print_succeeds None "$ "
  = ("$ ",
     Cli.Raise
       (Py.UnhandledException
          (Py.UnhandledException
             (Py.ParseError (ET.mkParseError ET.XML_ERROR_NO_ELEMENTS (1, 14))))))
  /\ Py.str (Py.UnhandledException
               (Py.UnhandledException
                  (Py.ParseError (ET.mkParseError ET.XML_ERROR_NO_ELEMENTS (1, 14)))))
     = Py.str (Py.UnhandledException
                 (Py.ParseError (ET.mkParseError ET.XML_ERROR_NO_ELEMENTS (1, 14))))
  /\ (forall pe, ET.fromstring Examples.unclosed = inl pe ->
                 Py.UnhandledException
                   (Py.ParseError (ET.mkParseError ET.XML_ERROR_NO_ELEMENTS (1, 14)))
                 = Py.UnhandledException (Py.ParseError pe)
                 /\ Py.str (Py.UnhandledException
                              (Py.UnhandledException
                                 (Py.ParseError
                                    (ET.mkParseError ET.XML_ERROR_NO_ELEMENTS (1, 14)))))
                    = ET.ParseError_str pe).
Proof.
  apply (main_wraps_every_parser_failure
           ET.fromstring unit unit
           (Examples.args_of (Cli.mkNamespace (Some "http://feed") true (Some 3%Z)))
           (Examples.fetch_of Examples.unclosed) Examples.print_succeeds None "$ "
           (Cli.mkNamespace (Some "http://feed") true (Some 3%Z)) Examples.unclosed
           (Py.UnhandledException
              (Py.ParseError (ET.mkParseError ET.XML_ERROR_NO_ELEMENTS (1, 14))))).
  - reflexivity.
  - reflexivity.
  - vm_compute. reflexivity.
Defined.

(** X11.  How a call of [main] can end, and what it leaves on standard
    output.  An exception of a collaborator passes through, not wrapped,
    exactly when the arguments do not parse or the fetch fails: both
    stand before the [try] block; standard output then holds what
    argparse wrote, which is the help text for [-h].  [main] raises the
    [UnhandledException] around an exception of [rss_parser] exactly
    when the arguments parse, the fetch returns a document and
    [rss_parser] raises on it; nothing is printed.  It raises the
    [UnhandledException] around the exception of a failed write exactly
    when [rss_parser] returns its lines and the [print] of them fails.
    It returns exactly when [rss_parser] returns its lines and the
    [print] succeeds, and then it returns 0. *)
Theorem main_outcomes :
  forall (fromstring : string -> ET.ParseError + ET.Element) (E F : Type)
         (parse_args : option (list string) -> (string * E) + Cli.Namespace)
         (requests_get_text : option string -> E + string)
         (print_fails : string -> string -> option (string * F))
         (argv : option (list string)) (stdout : string),
    (forall e,
        snd (main fromstring E F parse_args requests_get_text print_fails argv stdout)
        = Cli.Propagate e
        <-> ((exists written,
                 parse_args argv = inl (written, e)
                 /\ fst (main fromstring E F parse_args requests_get_text print_fails
                           argv stdout)
                    = stdout ++ written)
             \/ (exists args,
                    parse_args argv = inr args
                    /\ requests_get_text (Cli.source args) = inl e
                    /\ fst (main fromstring E F parse_args requests_get_text print_fails
                              argv stdout)
                       = stdout)))
    /\ (forall x,
           snd (main fromstring E F parse_args requests_get_text print_fails argv stdout)
           = Cli.Raise x
           <-> exists args xml e,
                 parse_args argv = inr args
                 /\ requests_get_text (Cli.source args) = inr xml
                 /\ rss_parser fromstring xml (Cli.limit args) (Cli.json args) = Py.Raise e
                 /\ x = Py.UnhandledException e
                 /\ fst (main fromstring E F parse_args requests_get_text print_fails
                           argv stdout)
                    = stdout)
    /\ (forall f,
           snd (main fromstring E F parse_args requests_get_text print_fails argv stdout)
           = Cli.RaiseFromPrint f
           <-> exists args xml lines written,
                 parse_args argv = inr args
                 /\ requests_get_text (Cli.source args) = inr xml
                 /\ rss_parser fromstring xml (Cli.limit args) (Cli.json args)
                    = Py.Ok lines
                 /\ print_fails stdout (String.concat Cli.newline lines)
                    = Some (written, f)
                 /\ fst (main fromstring E F parse_args requests_get_text print_fails
                           argv stdout)
                    = stdout ++ written)
    /\ (forall code,
           snd (main fromstring E F parse_args requests_get_text print_fails argv stdout)
           = Cli.Return code
           <-> code = 0%Z
               /\ exists args xml lines,
                    parse_args argv = inr args
                    /\ requests_get_text (Cli.source args) = inr xml
                    /\ rss_parser fromstring xml (Cli.limit args) (Cli.json args)
                       = Py.Ok lines
                    /\ print_fails stdout (String.concat Cli.newline lines) = None
                    /\ fst (main fromstring E F parse_args requests_get_text print_fails
                              argv stdout)
                       = stdout ++ String.concat Cli.newline lines ++ Cli.newline).
Proof.
  intros fromstring E F parse_args requests_get_text print_fails argv stdout.
  unfold main.
  destruct (parse_args argv) as [[written0 e0]|args] eqn:Hargs.
  { cbn [fst snd]. split; [|split; [|split]].
    - intros e. split.
      + intros H. injection H as <-. left. exists written0. split; reflexivity.
      + intros [[written [H _]]|[args [H _]]]; congruence.
    - intros x. split; [intros H; discriminate H|].
      intros [args [xml [e [H _]]]]. discriminate H.
    - intros f. split; [intros H; discriminate H|].
      intros [args [xml [lines [written [H _]]]]]. discriminate H.
    - intros code. split; [intros H; discriminate H|].
      intros [_ [args [xml [lines [H _]]]]]. discriminate H. }
  destruct (requests_get_text (Cli.source args)) as [e0|xml] eqn:Hget.
  { cbn [fst snd]. split; [|split; [|split]].
    - intros e. split.
      + intros H. injection H as <-. right. exists args.
        split; [reflexivity|]. split; [exact Hget|reflexivity].
      + intros [[written [H _]]|[args' [Ha [Hg _]]]]; [discriminate H|].
        injection Ha as <-. congruence.
    - intros x. split; [intros H; discriminate H|].
      intros [args' [xml [e [Ha [Hg _]]]]]. injection Ha as <-. congruence.
    - intros f. split; [intros H; discriminate H|].
      intros [args' [xml [lines [written [Ha [Hg _]]]]]]. injection Ha as <-. congruence.
    - intros code. split; [intros H; discriminate H|].
      intros [_ [args' [xml [lines [Ha [Hg _]]]]]]. injection Ha as <-. congruence. }
  destruct (rss_parser fromstring xml (Cli.limit args) (Cli.json args))
    as [lines|e0] eqn:Hparser.
  - rewrite (main_try_joins fromstring xml args lines Hparser). unfold print.
    destruct (print_fails stdout (String.concat Cli.newline lines))
      as [[written0 f0]|] eqn:Hprint; cbn [fst snd].
    + split; [|split; [|split]].
      * intros e. split; [intros H; discriminate H|].
        intros [[written [H _]]|[args' [Ha [Hg _]]]]; [discriminate H|].
        injection Ha as <-. congruence.
      * intros x. split; [intros H; discriminate H|].
        intros [args' [xml' [e [Ha [Hg [Hp _]]]]]]. injection Ha as <-.
        rewrite Hget in Hg. injection Hg as <-. congruence.
      * intros f. split.
        -- intros H. injection H as <-. exists args, xml, lines, written0.
           repeat split; assumption.
        -- intros [args' [xml' [lines' [written [Ha [Hg [Hp [Hpr _]]]]]]]].
           injection Ha as <-. rewrite Hget in Hg. injection Hg as <-.
           rewrite Hparser in Hp. injection Hp as <-. congruence.
      * intros code. split; [intros H; discriminate H|].
        intros [_ [args' [xml' [lines' [Ha [Hg [Hp [Hpr _]]]]]]]].
        injection Ha as <-. rewrite Hget in Hg. injection Hg as <-.
        rewrite Hparser in Hp. injection Hp as <-. congruence.
    + split; [|split; [|split]].
      * intros e. split; [intros H; discriminate H|].
        intros [[written [H _]]|[args' [Ha [Hg _]]]]; [discriminate H|].
        injection Ha as <-. congruence.
      * intros x. split; [intros H; discriminate H|].
        intros [args' [xml' [e [Ha [Hg [Hp _]]]]]]. injection Ha as <-.
        rewrite Hget in Hg. injection Hg as <-. congruence.
      * intros f. split; [intros H; discriminate H|].
        intros [args' [xml' [lines' [written [Ha [Hg [Hp [Hpr _]]]]]]]].
        injection Ha as <-. rewrite Hget in Hg. injection Hg as <-.
        rewrite Hparser in Hp. injection Hp as <-. congruence.
      * intros code. split.
        -- intros H. injection H as <-. split; [reflexivity|].
           exists args, xml, lines. repeat split; assumption.
        -- intros [-> _]. reflexivity.
  - rewrite (main_try_raises fromstring xml args e0 Hparser). cbn [fst snd].
    split; [|split; [|split]].
    + intros e. split; [intros H; discriminate H|].
      intros [[written [H _]]|[args' [Ha [Hg _]]]]; [discriminate H|].
      injection Ha as <-. congruence.
    + intros x. split.
      * intros H. injection H as <-. exists args, xml, e0. repeat split; assumption.
      * intros [args' [xml' [e [Ha [Hg [Hp [-> _]]]]]]]. injection Ha as <-.
        rewrite Hget in Hg. injection Hg as <-. congruence.
    + intros f. split; [intros H; discriminate H|].
      intros [args' [xml' [lines [written [Ha [Hg [Hp _]]]]]]]. injection Ha as <-.
      rewrite Hget in Hg. injection Hg as <-. congruence.
    + intros code. split; [intros H; discriminate H|].
      intros [_ [args' [xml' [lines [Ha [Hg [Hp _]]]]]]]. injection Ha as <-.
      rewrite Hget in Hg. injection Hg as <-. congruence.
Qed.

(** A failed fetch, on an example: the exception passes through and
    nothing is printed. *)
Example main_failed_fetch :
  main ET.fromstring unit unit
    (Examples.args_of (Cli.mkNamespace None false None)) Examples.fetch_fails
    Examples.print_succeeds None "$ "
  = ("$ ", Cli.Propagate tt).
Proof. reflexivity. Qed.
